(** * The scikit-learn wrapper for Keras models: parameter routing, label
    negotiation and the estimator facade of [sklearn_keras_wrap/wrappers.py].

    The development embeds [BaseWrapper], [KerasClassifier] and
    [KerasRegressor] as Rocq functions:
    - Python exceptions are a result type, attribute dictionaries are finite
      maps from strings, keyword arguments of [set_params] are ordered
      association lists (Python keeps their order);
    - numpy arrays are 0-, 1- and 2-dimensional arrays of integers ([Z],
      labels and class indices) or rationals ([Q], probabilities and
      regression targets); the dtype of an array of exact 0/1 values is not
      tracked;
    - the Keras model, the model-building callable and the nested estimators
      are collaborators: their signatures and the few attributes the wrapper
      reads are data, their behaviour is a record of functions, and every
      call the wrapper makes to them is appended to an event log. *)

From stdpp Require Import gmap strings list fin_maps pretty sorting.
From Stdlib Require Import ZArith QArith.

Open Scope Z_scope.
Open Scope nat_scope.
Open Scope string_scope.

(** ** Python exceptions and results *)

Module Py.

Inductive exn : Type :=
| ValueError (msg : string)
| RuntimeError (msg : string)
| NotFittedError (msg : string)
| TypeError (msg : string)
| AttributeError (attr : string)
| IndexError
| AxisError.

Inductive result (A : Type) : Type :=
| Ok (a : A)
| Raise (e : exn).
Arguments Ok {A} a.
Arguments Raise {A} e.

Definition bind {A B} (m : result A) (k : A → result B) : result B :=
  match m with
  | Ok a => k a
  | Raise e => Raise e
  end.

Definition is_ok {A} (m : result A) : bool :=
  match m with Ok _ => true | Raise _ => false end.

(** [mapM] for results: the first exception wins, as in a Python loop. *)
Fixpoint traverse {A B} (f : A → result B) (l : list A) : result (list B) :=
  match l with
  | [] => Ok []
  | x :: t =>
      bind (f x) (λ y, bind (traverse f t) (λ ys, Ok (y :: ys)))
  end.

End Py.
Export Py.

#[global] Instance result_ret : MRet result := @Ok.
#[global] Instance result_bind : MBind result := λ A B k m, Py.bind m k.

(** ** numpy arrays of at most two dimensions *)

Module Np.

(** [Arr2 m rows] has shape [(length rows, m)]; every row of a well-formed
    array has [m] entries. *)
Inductive ndarray (A : Type) : Type :=
| Arr0 (x : A)
| Arr1 (v : list A)
| Arr2 (ncols : nat) (rows : list (list A)).
Arguments Arr0 {A} x.
Arguments Arr1 {A} v.
Arguments Arr2 {A} ncols rows.

Definition shape {A} (a : ndarray A) : list nat :=
  match a with
  | Arr0 _ => []
  | Arr1 v => [length v]
  | Arr2 m rows => [length rows; m]
  end.

Definition ndim {A} (a : ndarray A) : nat := length (shape a).

Definition wf {A} (a : ndarray A) : Prop :=
  match a with
  | Arr2 m rows => Forall (λ r, length r = m) rows
  | _ => True
  end.

(** [a.ravel()] *)
Definition ravel {A} (a : ndarray A) : list A :=
  match a with
  | Arr0 x => [x]
  | Arr1 v => v
  | Arr2 _ rows => concat rows
  end.

(** Elementwise application: [np.where(a > 0.5, 1, 0)], [1 - a],
    [a.astype(...)] are all instances. *)
Definition amap {A B} (f : A → B) (a : ndarray A) : ndarray B :=
  match a with
  | Arr0 x => Arr0 (f x)
  | Arr1 v => Arr1 (map f v)
  | Arr2 m rows => Arr2 m (map (map f) rows)
  end.

Definition atraverse {A B} (f : A → result B) (a : ndarray A)
  : result (ndarray B) :=
  match a with
  | Arr0 x => y ← f x; Ok (Arr0 y)
  | Arr1 v => w ← traverse f v; Ok (Arr1 w)
  | Arr2 m rows => rs ← traverse (traverse f) rows; Ok (Arr2 m rs)
  end.

(** [y.reshape(-1, 1)] of a one-dimensional array. *)
Definition reshape_col {A} (v : list A) : ndarray A :=
  Arr2 1 (map (λ x, [x]) v).

(** [np.squeeze]: every axis of length one is removed. *)
Definition squeeze {A} (a : ndarray A) : ndarray A :=
  match a with
  | Arr0 x => Arr0 x
  | Arr1 [x] => Arr0 x
  | Arr1 v => Arr1 v
  | Arr2 m [r] =>
      if decide (m = 1) then
        match r with
        | [x] => Arr0 x
        | _ => Arr1 r
        end
      else Arr1 r
  | Arr2 m rows =>
      if decide (m = 1) then Arr1 (concat rows) else Arr2 m rows
  end.

(** Iterating an array yields its slices along the first axis. *)
Definition iter {A} (a : ndarray A) : result (list (ndarray A)) :=
  match a with
  | Arr0 _ => Raise (TypeError "iteration over a 0-d array")
  | Arr1 v => Ok (map Arr0 v)
  | Arr2 _ rows => Ok (map Arr1 rows)
  end.

(** [np.column_stack]: arrays of fewer than two dimensions become columns,
    then everything is concatenated along the second axis. *)
Definition as_columns {A} (a : ndarray A) : nat * list (list A) :=
  match a with
  | Arr0 x => (1, [[x]])
  | Arr1 v => (1, map (λ x, [x]) v)
  | Arr2 m rows => (m, rows)
  end.

Definition concat_axis1 {A} (a b : nat * list (list A))
  : result (nat * list (list A)) :=
  if decide (length a.2 = length b.2) then
    Ok (a.1 + b.1, zip_with app a.2 b.2)
  else
    Raise (ValueError "all the input array dimensions except for the concatenation axis must match exactly").

Fixpoint hstack {A} (bs : list (nat * list (list A)))
  : result (nat * list (list A)) :=
  match bs with
  | [] => Raise (ValueError "need at least one array to concatenate")
  | [b] => Ok b
  | b :: rest => r ← hstack rest; concat_axis1 b r
  end.

Definition column_stack {A} (tup : list (ndarray A)) : result (ndarray A) :=
  r ← hstack (map as_columns tup); Ok (Arr2 r.1 r.2).

(** [np.concatenate([a, b], axis=1)] *)
Definition concatenate_axis1 {A} (a b : ndarray A) : result (ndarray A) :=
  match a, b with
  | Arr2 m rows, Arr2 m' rows' =>
      r ← concat_axis1 (m, rows) (m', rows'); Ok (Arr2 r.1 r.2)
  | _, _ => Raise AxisError
  end.

(** [np.split(y, k, axis=1)] with [k = y.shape[1]]: one column per block. *)
Definition split_columns {A} (a : ndarray A) : result (list (ndarray A)) :=
  match a with
  | Arr2 0 _ => Raise (ValueError "number sections must be larger than 0.")
  | Arr2 m rows =>
      Ok (map (λ j, Arr2 1 (map (λ r, take 1 (drop j r)) rows)) (seq 0 m))
  | _ => Raise IndexError
  end.

(** [np.unique]: the sorted distinct values of the flattened array. *)
Fixpoint insert_sorted (x : Z) (l : list Z) : list Z :=
  match l with
  | [] => [x]
  | h :: t =>
      if (x <? h)%Z then x :: l
      else if (x =? h)%Z then l
      else h :: insert_sorted x t
  end.

Definition unique_list (l : list Z) : list Z := foldr insert_sorted [] l.

Definition unique (a : ndarray Z) : list Z := unique_list (ravel a).

(** [np.searchsorted(classes, x)] (side left) on a sorted array: the number
    of entries smaller than [x]. *)
Fixpoint searchsorted1 (classes : list Z) (x : Z) : nat :=
  match classes with
  | [] => 0
  | c :: t => if (c <? x)%Z then S (searchsorted1 t x) else 0
  end.

Definition searchsorted (classes : list Z) (a : ndarray Z) : ndarray Z :=
  amap (λ x, Z.of_nat (searchsorted1 classes x)) a.

(** [classes[idx]] with an integer index array: negative indices count from
    the end, anything out of range raises [IndexError]. *)
Definition getitem (classes : list Z) (i : Z) : result Z :=
  let n := Z.of_nat (length classes) in
  let j := if (i <? 0)%Z then (i + n)%Z else i in
  if ((0 <=? j)%Z && (j <? n)%Z)%bool then
    match classes !! Z.to_nat j with
    | Some c => Ok c
    | None => Raise IndexError
    end
  else Raise IndexError.

Definition take_along (classes : list Z) (idx : ndarray Z)
  : result (ndarray Z) :=
  atraverse (getitem classes) idx.

(** [np.where(a > 0.5, 1, 0)] *)
Definition gt_half (p : Q) : Z :=
  if Qle_bool p (1 # 2) then 0%Z else 1%Z.

Definition where_gt_half (a : ndarray Q) : ndarray Z := amap gt_half a.

(** [np.argmax(a, axis=1)]: per row, the first position of the maximum.
    [leb] is the order of the element type. *)
Fixpoint argmax_from {A} (leb : A → A → bool) (best : A) (besti i : nat)
    (l : list A) : nat :=
  match l with
  | [] => besti
  | x :: t =>
      if leb x best then argmax_from leb best besti (S i) t
      else argmax_from leb x i (S i) t
  end.

Definition argmax_row {A} (leb : A → A → bool) (r : list A) : result Z :=
  match r with
  | [] => Raise (ValueError "attempt to get argmax of an empty sequence")
  | x :: t => Ok (Z.of_nat (argmax_from leb x 0 1 t))
  end.

Definition argmax_axis1 {A} (leb : A → A → bool) (a : ndarray A)
  : result (ndarray Z) :=
  match a with
  | Arr2 _ rows => v ← traverse (argmax_row leb) rows; Ok (Arr1 v)
  | _ => Raise AxisError
  end.

(** [a.shape[1]] *)
Definition shape1 {A} (a : ndarray A) : result nat :=
  match a with
  | Arr2 m _ => Ok m
  | _ => Raise IndexError
  end.

(** Keras' [to_categorical(y)] with the default [num_classes]: the class
    vector is flattened, the width is [max(y) + 1], a trailing axis of
    length one is dropped from the input shape.  Inputs whose result would
    have three dimensions are outside the arrays modelled here. *)
Fixpoint max_Z (x : Z) (l : list Z) : Z :=
  match l with
  | [] => x
  | h :: t => max_Z (Z.max x h) t
  end.

Definition one_hot (width : nat) (i : Z) : result (list Z) :=
  let n := Z.of_nat width in
  let j := if (i <? 0)%Z then (i + n)%Z else i in
  if ((0 <=? j)%Z && (j <? n)%Z)%bool then
    Ok (map (λ k, if decide (k = Z.to_nat j) then 1%Z else 0%Z) (seq 0 width))
  else Raise IndexError.

Definition to_categorical (a : ndarray Z) : result (ndarray Z) :=
  match ravel a with
  | [] => Raise (ValueError "zero-size array to reduction operation maximum which has no identity")
  | x :: t =>
      let num_classes := Z.to_nat (max_Z x t + 1) in
      rows ← traverse (one_hot num_classes) (x :: t);
      match a with
      | Arr0 _ => Ok (Arr1 (concat rows))
      | Arr1 _ => Ok (Arr2 num_classes rows)
      | Arr2 1 _ => Ok (Arr2 num_classes rows)
      | Arr2 _ _ => Raise (ValueError "three-dimensional result")
      end
  end.

End Np.
Export Np.

(** ** The collaborators: signatures, Keras models, Python values *)

Module Keras.

(** What [inspect.getfullargspec] reports about a callable. *)
Record signature : Type := {
  sig_args : list string;
  sig_varargs : option string;
  sig_kwonlyargs : list string;
  sig_varkw : option string
}.

(** [generic_utils.has_arg(fn, name, accept_all=False)] *)
Definition has_arg (fn : signature) (name : string) (accept_all : bool)
  : bool :=
  if (accept_all && bool_decide (is_Some (sig_varkw fn)))%bool then true
  else (bool_decide (name ∈ sig_args fn)
        || bool_decide (name ∈ sig_kwonlyargs fn))%bool.

Inductive loss_spec : Type :=
| LossSingle (l : string)
| LossList (ls : list string).

(** [losses.is_categorical_crossentropy] on losses given by name. *)
Definition is_categorical_crossentropy (loss : string) : bool :=
  bool_decide (loss = "categorical_crossentropy").

Record training_config : Type := {
  tc_loss : loss_spec;
  tc_optimizer : string;
  tc_metrics : list string
}.

(** A model as the wrapper sees it: the signatures of its three methods,
    its number of output heads and the training configuration that
    [compile] installed, if any. *)
Record keras_model : Type := {
  km_name : string;
  km_fit_sig : signature;
  km_evaluate_sig : signature;
  km_predict_sig : signature;
  km_outputs : nat;
  km_training_config : option training_config
}.

(** [clone_model] copies the architecture and drops the compilation. *)
Definition clone_model (m : keras_model) : keras_model :=
  {| km_name := km_name m;
     km_fit_sig := km_fit_sig m;
     km_evaluate_sig := km_evaluate_sig m;
     km_predict_sig := km_predict_sig m;
     km_outputs := km_outputs m;
     km_training_config := None |}.

Definition compile (m : keras_model) (tc : training_config) : keras_model :=
  {| km_name := km_name m;
     km_fit_sig := km_fit_sig m;
     km_evaluate_sig := km_evaluate_sig m;
     km_predict_sig := km_predict_sig m;
     km_outputs := km_outputs m;
     km_training_config := Some tc |}.

(** [model.loss] *)
Definition km_loss (m : keras_model) : result loss_spec :=
  match km_training_config m with
  | Some tc => Ok (tc_loss tc)
  | None => Raise (AttributeError "loss")
  end.

(** What [model.predict] returns: one array, or one array per head. *)
Inductive prediction : Type :=
| PredArr (a : ndarray Q)
| PredList (l : list (ndarray Q)).

End Keras.
Export Keras.

Module Value.

(** Label arrays are integer or floating-point arrays. *)
Inductive labels : Type :=
| LInt (a : ndarray Z)
| LFloat (a : ndarray Q).

Definition lshape (y : labels) : list nat :=
  match y with LInt a => shape a | LFloat a => shape a end.

Definition lsqueeze (y : labels) : labels :=
  match y with LInt a => LInt (squeeze a) | LFloat a => LFloat (squeeze a) end.

Definition lreshape_if_1d (y : labels) : labels :=
  match y with
  | LInt (Arr1 v) => LInt (reshape_col v)
  | LFloat (Arr1 v) => LFloat (reshape_col v)
  | _ => y
  end.

(** A plain function ([inspect.isfunction]) or an instance of a class that
    defines [__call__]; [cb_id] identifies the code behind it. *)
Record callable : Type := {
  cb_isfunction : bool;
  cb_sig : signature;
  cb_id : nat
}.

#[warnings="-register-all"]
Inductive pyval : Type :=
| PyNone
| PyBool (b : bool)
| PyInt (n : Z)
| PyStr (s : string)
| PyArr (a : labels)
| PyList (l : list pyval)
| PyTuple (l : list pyval)
| PyCallable (c : callable)
| PyModel (m : keras_model)
| PyObject (id : nat).

(** Truth value of a Python object. *)
Definition truthy (v : pyval) : bool :=
  match v with
  | PyNone => false
  | PyBool b => b
  | PyInt n => negb (n =? 0)%Z
  | PyStr s => negb (bool_decide (s = ""))
  | PyList l | PyTuple l => negb (bool_decide (length l = 0))
  | _ => true
  end.

(** The capability probes of [_check_build_fn].  A Keras model is callable
    as well: the order of the probes decides. *)
Definition is_None (v : pyval) : bool :=
  match v with PyNone => true | _ => false end.

Definition isinstance_Model (v : pyval) : bool :=
  match v with PyModel _ => true | _ => false end.

Definition isfunction (v : pyval) : bool :=
  match v with PyCallable c => cb_isfunction c | _ => false end.

Definition is_callable (v : pyval) : bool :=
  match v with PyCallable _ | PyModel _ => true | _ => false end.

End Value.
Export Value.

(** ** Parameter router *)

Module Router.

Section Pools.
Context {V : Type}.

(** [BaseWrapper._filter_params(fn, params_to_check)], with the instance
    dictionary [self.__dict__] as first argument.  An absent or empty
    [params_to_check] is falsy, and the instance dictionary is filtered
    instead. *)
Definition pool_of (self_dict : gmap string V)
    (params_to_check : option (gmap string V)) : gmap string V :=
  match params_to_check with
  | Some p => if bool_decide (size p = 0) then self_dict else p
  | None => self_dict
  end.

Definition _filter_params (self_dict : gmap string V) (fn : signature)
    (params_to_check : option (gmap string V)) : gmap string V :=
  map_fold
    (λ name value res,
       if has_arg fn name false then <[name := value]> res else res)
    ∅ (pool_of self_dict params_to_check).

(** [{**d1, **d2, ...}]: the dictionaries are unpacked from left to
    right into a fresh one, every item overwriting what is there. *)
Definition dict_update (acc d : gmap string V) : gmap string V :=
  map_fold (λ name value res, <[name := value]> res) acc d.

Definition dict_unpack (ds : list (gmap string V)) : gmap string V :=
  foldl dict_update ∅ ds.

End Pools.

End Router.
Export Router.

(** ** Target-type inference *)

Module Sklearn.

(** [y != y.astype(int)] and [y.astype(int)] on one entry. *)
Definition to_int (q : Q) : Z := Z.quot (Qnum q) (Z.pos (Qden q)).

Definition is_integral (q : Q) : bool :=
  (Z.rem (Qnum q) (Z.pos (Qden q)) =? 0)%Z.

(** [sklearn.utils.multiclass.type_of_target] on an integer array:
    a matrix of at least two columns with fewer than three distinct values
    is a label indicator matrix, any other such matrix is
    multiclass-multioutput, a single column (or a vector) is binary with at
    most two distinct values and multiclass otherwise. *)
Definition type_of_target_int (a : ndarray Z) : string :=
  match a with
  | Arr2 m _ =>
      if (1 <? m)%nat then
        if (length (unique a) <? 3)%nat then "multilabel-indicator"
        else "multiclass-multioutput"
      else if (m =? 0)%nat then "unknown"
      else if (2 <? length (unique a))%nat then "multiclass"
      else "binary"
  | _ => if (2 <? length (unique a))%nat then "multiclass" else "binary"
  end.

(** On a floating-point array the same rules apply when every entry is
    integral; otherwise the target is continuous. *)
Definition type_of_target (y : labels) : string :=
  match y with
  | LInt a => type_of_target_int a
  | LFloat a =>
      if forallb is_integral (ravel a) then type_of_target_int (amap to_int a)
      else
        match a with
        | Arr2 m _ =>
            if (1 <? m)%nat then "continuous-multioutput" else "continuous"
        | _ => "continuous"
        end
  end.

End Sklearn.
Export Sklearn.

(** ** Label shape negotiator *)

Module Negotiator.

Definition extra_args : Type := list (string * pyval).

Definition int_array (c : list Z) : pyval := PyArr (LInt (Arr1 c)).

(** Integral labels of floating-point dtype stand for the integers they
    denote. *)
Definition as_int (y : labels) : ndarray Z :=
  match y with
  | LInt a => a
  | LFloat a => amap to_int a
  end.

(** [BaseWrapper._pre_process_y]: a one-dimensional [y] becomes a column. *)
Definition BaseWrapper_pre_process_y (y : labels) : labels * extra_args :=
  (lreshape_if_1d y, []).

(** [BaseWrapper._post_process_y] *)
Definition BaseWrapper_post_process_y (y : prediction)
  : result (ndarray Q * extra_args) :=
  tup ← match y with
        | PredArr a => iter a
        | PredList l => Ok l
        end;
  y ← column_stack tup;
  Ok (squeeze y, []).

(** [KerasClassifier._pre_process_y] *)
Definition KerasClassifier_pre_process_y (y : labels)
  : result (list (ndarray Z) * extra_args) :=
  let '(y, _) := BaseWrapper_pre_process_y y in
  let cls_type_ := type_of_target y in
  let y := as_int y in
  n_outputs_ ← shape1 y;
  '(n_outputs_keras_, classes_, y) ←
    (if decide (cls_type_ = "binary") then
       let classes_ := unique y in
       let y := searchsorted classes_ y in
       Ok (1, [classes_], [y])
     else if decide (cls_type_ = "multiclass") then
       let classes_ := unique y in
       let y := searchsorted classes_ y in
       Ok (1, [classes_], [y])
     else if decide (cls_type_ = "multilabel-indicator") then
       let classes_ := replicate n_outputs_ [0; 1]%Z in
       y ← split_columns y;
       Ok (length y, classes_, y)
     else if decide (cls_type_ = "multiclass-multioutput") then
       y ← split_columns y;
       let classes_ := map unique y in
       Ok (length y, classes_, y)
     else Raise (ValueError ("Unknown label type: '" ++ cls_type_ ++ "'")));
  let '(classes_attr, n_outputs_, n_classes_) :=
    match classes_ with
    | [c] => (int_array c, 1, PyInt (Z.of_nat (length c)))
    | _ =>
        let n_classes_ := map (λ c, PyInt (Z.of_nat (length c))) classes_ in
        (PyList (map int_array classes_), length n_classes_,
         PyList n_classes_)
    end in
  Ok (y,
      [("classes_", classes_attr);
       ("n_outputs_", PyInt (Z.of_nat n_outputs_));
       ("n_outputs_keras_", PyInt (Z.of_nat n_outputs_keras_));
       ("n_classes_", n_classes_);
       ("cls_type_", PyStr cls_type_)]).

(** The class vocabulary of one output, read back from [self.classes_]. *)
Definition decode_classes (v : pyval) : result (list Z) :=
  match v with
  | PyArr (LInt (Arr1 c)) => Ok c
  | _ => Raise (TypeError "classes_ is not a one-dimensional array")
  end.

Definition one_minus (p : Q) : Q := (1 - p)%Q.

(** One turn of the loop of [KerasClassifier._post_process_y]: the class
    predictions of one output and the (possibly widened) probabilities. *)
Definition post_process_output (cls_type_ : string) (y_ : ndarray Q)
    (classes_ : list Z) : result (ndarray Z * ndarray Q) :=
  if decide (cls_type_ = "binary") then
    m ← shape1 y_;
    if decide (m = 1) then
      pred ← take_along classes_ (where_gt_half y_);
      y_i ← concatenate_axis1 (amap one_minus y_) y_;
      Ok (pred, y_i)
    else
      idx ← argmax_axis1 Z.leb (where_gt_half y_);
      pred ← take_along classes_ idx;
      Ok (pred, y_)
  else if decide (cls_type_ = "multiclass") then
    idx ← argmax_axis1 Qle_bool y_;
    pred ← take_along classes_ idx;
    Ok (pred, y_)
  else if decide (cls_type_ = "multilabel-indicator") then
    Ok (where_gt_half y_, y_)
  else if decide (cls_type_ = "multiclass-multioutput") then
    idx ← argmax_axis1 Qle_bool y_;
    pred ← take_along classes_ idx;
    Ok (pred, y_)
  else Raise (ValueError "Unknown classification task type").

(** The loop over [zip(y, cls_)]; outputs beyond the shorter of the two
    keep their probabilities and get no class prediction. *)
Fixpoint post_process_loop (cls_type_ : string) (y : list (ndarray Q))
    (cls_ : list (list Z)) : result (list (ndarray Z) * list (ndarray Q)) :=
  match y, cls_ with
  | y_ :: y', classes_ :: cls' =>
      '(pred, y_i) ← post_process_output cls_type_ y_ classes_;
      '(preds, ys) ← post_process_loop cls_type_ y' cls';
      Ok (pred :: preds, y_i :: ys)
  | _, _ => Ok ([], y)
  end.

(** [KerasClassifier._post_process_y]; [getattr] reads the attributes of
    [self].  Returns the predicted classes and [class_probabilities]. *)
Definition KerasClassifier_post_process_y
    (getattr : string → result pyval) (y : prediction)
  : result (ndarray Z * ndarray Q) :=
  let y := match y with PredList l => l | PredArr a => [a] end in
  n_outputs_ ← getattr "n_outputs_";
  classes_ ← getattr "classes_";
  cls_ ← match n_outputs_ with
         | PyInt 1 => c ← decode_classes classes_; Ok [c]
         | _ =>
             match classes_ with
             | PyList l => traverse decode_classes l
             | _ => Raise (TypeError "classes_ is not a list of arrays")
             end
         end;
  cls_type_ ← getattr "cls_type_";
  let cls_type_ := match cls_type_ with PyStr s => s | _ => "" end in
  '(class_predictions, y) ← post_process_loop cls_type_ y cls_;
  class_probabilities ← column_stack y;
  y ← column_stack class_predictions;
  Ok (squeeze y, squeeze class_probabilities).

(** [KerasRegressor._pre_process_y] *)
Definition KerasRegressor_pre_process_y (y : labels)
  : result (list labels * extra_args) :=
  let '(y, _) := BaseWrapper_pre_process_y y in
  n_outputs_ ← match y with LInt a => shape1 a | LFloat a => shape1 a end;
  let n_outputs_keras_ := 1 in
  Ok ([y],
      [("n_outputs_", PyInt (Z.of_nat n_outputs_));
       ("n_outputs_keras_", PyInt (Z.of_nat n_outputs_keras_))]).

(** [KerasRegressor._post_process_y]: [y.astype("float64")] leaves the
    rational value of every entry as it is; a list has no [astype]. *)
Definition astype_float64 (q : Q) : Q := q.

Definition KerasRegressor_post_process_y (y : prediction)
  : result (ndarray Q * extra_args) :=
  match y with
  | PredArr a => Ok (squeeze (amap astype_float64 a), [])
  | PredList _ => Raise (AttributeError "astype")
  end.

End Negotiator.
Export Negotiator.

(** ** Estimator facade *)

Module Facade.

Inductive kind : Type := BaseWrapper | KerasClassifier | KerasRegressor.

(** What the class of the estimator fixes: which wrapper it derives from,
    how an instance prints, the signature of [__call__] when the class
    defines one, and the named parameters of [__init__] ([self] and
    variadic parameters left out).  Instance attributes are named by
    keyword arguments; [__call__] is taken not to be among them. *)
Record klass : Type := {
  k_kind : kind;
  k_repr : string;
  k_call : option signature;
  k_init_params : list string
}.

(** The callable that [_check_build_fn] settles on. *)
Inductive final_build_fn : Type :=
| SelfCall (sig : signature)
| ClonePrebuilt
| Function (c : callable)
| CallMethod (c : callable).

Definition clone_sig : signature :=
  {| sig_args := ["build_fn"]; sig_varargs := None;
     sig_kwonlyargs := []; sig_varkw := None |}.

Definition signature_of (f : final_build_fn) : signature :=
  match f with
  | SelfCall sig => sig
  | ClonePrebuilt => clone_sig
  | Function c | CallMethod c => cb_sig c
  end.

(** Entries of the class-level list [_legal_params_fns]. *)
Inductive registered : Type :=
| KerasMethod (owner name : string)
| BuildFn (f : final_build_fn)
| ModelMethod (m : keras_model) (name : string).

Definition _legal_params_fns_initial : list registered :=
  [KerasMethod "Sequential" "evaluate"; KerasMethod "Sequential" "fit";
   KerasMethod "Sequential" "predict"; KerasMethod "Model" "evaluate";
   KerasMethod "Model" "fit"; KerasMethod "Model" "predict"].

Definition KNOWN_KERAS_FN_NAMES : list string := ["fit"; "evaluate"; "predict"].

(** Calls that leave the wrapper. *)
Inductive event : Type :=
| EvBuild (f : final_build_fn) (args : gmap string pyval)
| EvModelFit (m : keras_model) (x y : pyval) (args : gmap string pyval)
| EvModelPredict (m : keras_model) (x : ndarray Q) (args : gmap string pyval)
| EvNestedSetParams (target : pyval) (params : list (string * pyval))
| EvWarn (msg : string).

Definition is_model_fit (ev : event) : bool :=
  match ev with EvModelFit _ _ _ _ => true | _ => false end.

Definition is_model_predict (ev : event) : bool :=
  match ev with EvModelPredict _ _ _ => true | _ => false end.

(** The behaviour of the collaborators: sklearn's input validation, the
    user's model-building code, the model's [fit] and [predict], the
    scorers, and the [get_params]/[set_params] of nested estimators
    ([ext_get_params] is [None] on objects without [get_params]). *)
Record externals : Type := {
  ext_check_X_y : ndarray Q → labels → result (ndarray Q * labels);
  ext_check_array : ndarray Q → result (ndarray Q);
  ext_check_sample_weight : ndarray Q → ndarray Q → result (ndarray Q);
  ext_build : final_build_fn → gmap string pyval → result keras_model;
  ext_fit : keras_model → pyval → pyval → gmap string pyval → result pyval;
  ext_predict : keras_model → ndarray Q → gmap string pyval → result prediction;
  ext_score : kind → labels → labels → option (ndarray Q) → result Q;
  ext_get_params : pyval → option (list (string * pyval));
  ext_set_params : pyval → list (string * pyval) → result pyval
}.

(** The mutable state: [self.__dict__], the class-level registry and the
    log of outside calls. *)
Record state : Type := {
  self_dict : gmap string pyval;
  legal_params_fns : list registered;
  log : list event
}.

Definition M (A : Type) : Type := state → result A * state.

#[global] Instance M_ret : MRet M := λ A a s, (Ok a, s).
#[global] Instance M_bind : MBind M := λ A B k m s,
  match m s with
  | (Ok a, s') => k a s'
  | (Raise e, s') => (Raise e, s')
  end.

Definition raise {A} (e : exn) : M A := λ s, (Raise e, s).
Definition lift {A} (r : result A) : M A := λ s, (r, s).
Definition get_dict : M (gmap string pyval) := λ s, (Ok (self_dict s), s).

Definition setattr (name : string) (v : pyval) : M unit := λ s,
  (Ok (), {| self_dict := <[name := v]> (self_dict s);
             legal_params_fns := legal_params_fns s;
             log := log s |}).

Definition register (r : registered) : M unit := λ s,
  (Ok (), {| self_dict := self_dict s;
             legal_params_fns := legal_params_fns s ++ [r];
             log := log s |}).

Definition emit (ev : event) : M unit := λ s,
  (Ok (), {| self_dict := self_dict s;
             legal_params_fns := legal_params_fns s;
             log := log s ++ [ev] |}).

Fixpoint for_each {A} (f : A → M unit) (l : list A) : M unit :=
  match l with
  | [] => mret ()
  | x :: t => _ ← f x; for_each f t
  end.

(** [sorted] on strings. *)
Fixpoint insert_str (x : string) (l : list string) : list string :=
  match l with
  | [] => [x]
  | h :: t => if String.leb x h then x :: l else h :: insert_str x t
  end.

Definition sorted (l : list string) : list string := foldr insert_str [] l.

(** [key.partition("__")]: the text before the first ["__"], whether the
    separator was found, and the text after it. *)
Fixpoint partition (s : string) : string * bool * string :=
  match s with
  | EmptyString => ("", false, "")
  | String c rest =>
      match s with
      | String (Ascii.Ascii true true true true true false true false)
          (String (Ascii.Ascii true true true true true false true false) after) =>
          ("", true, after)
      | _ =>
          let '(before, delim, after) := partition rest in
          (String c before, delim, after)
      end
  end.

(** An ordered dictionary as an association list: [d[k] = v]. *)
Fixpoint alist_set {V} (k : string) (v : V) (d : list (string * V))
  : list (string * V) :=
  match d with
  | [] => [(k, v)]
  | (k', v') :: t =>
      if decide (k = k') then (k, v) :: t else (k', v') :: alist_set k v t
  end.

Fixpoint alist_get {V} (k : string) (d : list (string * V)) : option V :=
  match d with
  | [] => None
  | (k', v) :: t => if decide (k = k') then Some v else alist_get k t
  end.

Definition py_str (v : pyval) : string :=
  match v with
  | PyInt n => pretty n
  | PyNone => "None"
  | PyStr s => s
  | PyBool true => "True"
  | PyBool false => "False"
  | _ => "<object>"
  end.

(** [len(y)], iteration over [y] and [y[0]]. *)
Definition rows_of (a : labels) : result (list labels) :=
  match a with
  | LInt a => l ← iter a; Ok (map LInt l)
  | LFloat a => l ← iter a; Ok (map LFloat l)
  end.

Definition py_len (v : pyval) : result nat :=
  match v with
  | PyList l | PyTuple l => Ok (length l)
  | PyArr a =>
      match lshape a with
      | n :: _ => Ok n
      | [] => Raise (TypeError "len() of unsized object")
      end
  | _ => Raise (TypeError "object has no len()")
  end.

Definition py_iter (v : pyval) : result (list pyval) :=
  match v with
  | PyList l | PyTuple l => Ok l
  | PyArr a => l ← rows_of a; Ok (map PyArr l)
  | _ => Raise (TypeError "object is not iterable")
  end.

Definition py_first (v : pyval) : result pyval :=
  l ← py_iter v;
  match l with
  | x :: _ => Ok x
  | [] => Raise IndexError
  end.

Definition py_squeeze (v : pyval) : pyval :=
  match v with
  | PyArr a => PyArr (lsqueeze a)
  | _ => v
  end.

(** [_clone_prebuilt_model] *)
Definition _clone_prebuilt_model (build_fn : keras_model)
  : result keras_model :=
  let model := clone_model build_fn in
  match km_training_config build_fn with
  | Some training_config => Ok (compile model training_config)
  | None =>
      Raise (ValueError ("To use " ++ km_name build_fn
                         ++ " as `build_fn`, you must compileit first."))
  end.

(** [y_.ndim == 1 or y_.shape[1] == 1] *)
Definition is_single_column (y_ : labels) : result bool :=
  match lshape y_ with
  | [_] => Ok true
  | [_; m] => Ok (bool_decide (m = 1))
  | _ => Raise IndexError
  end.

(** [to_categorical] casts to integers and returns a float array. *)
Definition to_categorical_labels (y_ : labels) : result labels :=
  r ← to_categorical (as_int y_); Ok (LFloat (amap inject_Z r)).

(** The loop of [KerasClassifier._check_output_model_compatibility] over
    [zip(losses, y)], assigning [y[i]]. *)
Fixpoint encode_for_losses (losses : list string) (y : list pyval)
  : result (list pyval) :=
  match losses, y with
  | loss :: losses', y_ :: y' =>
      y_i ←
        (if is_categorical_crossentropy loss then
           match y_ with
           | PyArr a =>
               col ← is_single_column a;
               if col : bool then
                 c ← to_categorical_labels a; Ok (PyArr c)
               else Ok y_
           | _ => Raise (AttributeError "ndim")
           end
         else Ok y_);
      rest ← encode_for_losses losses' y';
      Ok (y_i :: rest)
  | _, _ => Ok y
  end.

Section WithClass.
Context (K : klass) (E : externals).

(** Attributes the classes define for every instance. *)
Definition class_attr (name : string) : option pyval :=
  if decide (name = "_sk_params") then Some PyNone
  else if decide (name = "is_fitted_") then Some (PyBool false)
  else if decide (name = "n_outputs_") then
    match k_kind K with KerasRegressor => Some PyNone | _ => None end
  else None.

Definition lookup_attr (d : gmap string pyval) (name : string)
  : result pyval :=
  match d !! name with
  | Some v => Ok v
  | None =>
      match class_attr name with
      | Some v => Ok v
      | None => Raise (AttributeError name)
      end
  end.

Definition getattr (name : string) : M pyval := λ s,
  (lookup_attr (self_dict s) name, s).

Definition hasattr (name : string) : M bool := λ s,
  (Ok (is_ok (lookup_attr (self_dict s) name)), s).

Definition getattr_model (name : string) : M keras_model :=
  v ← getattr name;
  match v with
  | PyModel m => mret m
  | _ => raise (AttributeError "fit")
  end.

(** [hasattr(self, "__call__")] *)
Definition has_call : bool := bool_decide (is_Some (k_call K)).

(** [BaseWrapper._check_build_fn] *)
Definition _check_build_fn (build_fn : pyval) : M final_build_fn :=
  final_build_fn ←
    (if is_None build_fn then
       match k_call K with
       | None =>
           raise (ValueError "If not using the `build_fn` param, you must implement `__call__`")
       | Some sig => mret (SelfCall sig)
       end
     else if isinstance_Model build_fn then mret ClonePrebuilt
     else if isfunction build_fn then
       if has_call then
         raise (ValueError "This class cannot implement `__call__` if using the `build_fn` parameter")
       else
         match build_fn with
         | PyCallable c => mret (Function c)
         | _ => raise (TypeError "not a function")
         end
     else if is_callable build_fn then
       if has_call then
         raise (ValueError "This class cannot implement `__call__` if using the `build_fn` parameter")
       else
         match build_fn with
         | PyCallable c => mret (CallMethod c)
         | _ => raise (TypeError "not a callable object")
         end
     else raise (ValueError "`build_fn` must be a callable or None"));
  _ ← register (BuildFn final_build_fn);
  mret final_build_fn.

(** The call of [final_build_fn] with [build_args] unpacked. *)
Definition call_final_build_fn (f : final_build_fn)
    (build_args : gmap string pyval) : M keras_model :=
  _ ← emit (EvBuild f build_args);
  match f with
  | ClonePrebuilt =>
      match build_args !! "build_fn" with
      | Some (PyModel m) => lift (_clone_prebuilt_model m)
      | Some _ =>
          raise (ValueError "Expected `model` argument to be a `Model` instance")
      | None =>
          raise (TypeError "missing 1 required positional argument: 'build_fn'")
      end
  | _ => lift (ext_build E f build_args)
  end.

Definition sample_weight_value (sample_weight : option (ndarray Q)) : pyval :=
  match sample_weight with
  | Some w => PyArr (LFloat w)
  | None => PyNone
  end.

(** [BaseWrapper._build_keras_model] *)
Definition _build_keras_model (X y : pyval)
    (sample_weight : option (ndarray Q)) (kwargs : gmap string pyval)
  : M keras_model :=
  build_fn ← getattr "build_fn";
  final_build_fn ← _check_build_fn build_fn;
  d ← get_dict;
  let fn := signature_of final_build_fn in
  let model_args := _filter_params d fn None in
  let sample_weight_arg :=
    _filter_params d fn
      (Some {["sample_weight" := sample_weight_value sample_weight]}) in
  let X_y_args :=
    _filter_params d fn (Some (<["X" := X]> {["y" := y]})) in
  let kwargs := _filter_params d fn (Some kwargs) in
  let build_args :=
    dict_unpack [model_args; X_y_args; sample_weight_arg; kwargs] in
  model ← call_final_build_fn final_build_fn build_args;
  _ ← for_each (λ name, register (ModelMethod model name))
        KNOWN_KERAS_FN_NAMES;
  mret model.

(** [self.model_.fit] with [x=X], [y=y] and [fit_args] unpacked: Python refuses a keyword
    given twice before the call is made. *)
Definition call_model_fit (m : keras_model) (X y : pyval)
    (fit_args : gmap string pyval) : M pyval :=
  if (bool_decide (is_Some (fit_args !! "x"))
      || bool_decide (is_Some (fit_args !! "y")))%bool then
    raise (TypeError "fit() got multiple values for keyword argument")
  else
    _ ← emit (EvModelFit m X y fit_args);
    lift (ext_fit E m X y fit_args).

(** [BaseWrapper._fit_keras_model] *)
Definition _fit_keras_model (X y : pyval)
    (sample_weight : option (ndarray Q)) (kwargs : gmap string pyval)
  : M unit :=
  let kwargs :=
    match sample_weight with
    | Some w => <["sample_weight" := PyArr (LFloat w)]> kwargs
    | None => kwargs
    end in
  model_ ← getattr_model "model_";
  d ← get_dict;
  let kwargs := _filter_params d (km_fit_sig model_) (Some kwargs) in
  if (bool_decide (is_Some sample_weight)
      && negb (bool_decide (is_Some (kwargs !! "sample_weight"))))%bool then
    raise (ValueError ("Parameter `sample_weight` is unsupported by Keras model "
                       ++ km_name model_))
  else
    let fit_args := _filter_params d (km_fit_sig model_) None in
    let fit_args := dict_unpack [fit_args; kwargs] in
    history ← call_model_fit model_ X y fit_args;
    _ ← setattr "history_" history;
    setattr "is_fitted_" (PyBool true).

(** [BaseWrapper._check_output_model_compatibility] *)
Definition BaseWrapper_check_output_model_compatibility (y : pyval)
  : M pyval :=
  n_outputs_keras_ ← getattr "n_outputs_keras_";
  len_y ← lift (py_len y);
  if negb (match n_outputs_keras_ with
           | PyInt n => (n =? Z.of_nat len_y)%Z
           | _ => false
           end) then
    raise (RuntimeError ("Detected a model with " ++ py_str n_outputs_keras_
                         ++ " ouputs, but y has incompatible shape "
                         ++ pretty len_y))
  else if decide (len_y = 1) then lift (py_first y)
  else
    items ← lift (py_iter y);
    mret (PyTuple (map py_squeeze items)).

(** [KerasClassifier._check_output_model_compatibility] *)
Definition KerasClassifier_check_output_model_compatibility (y : pyval)
  : M pyval :=
  model_ ← getattr_model "model_";
  loss ← lift (km_loss model_);
  losses ←
    match loss with
    | LossList ls => mret ls
    | LossSingle l =>
        n_outputs_ ← getattr "n_outputs_";
        match n_outputs_ with
        | PyInt n => mret (replicate (Z.to_nat n) l)
        | _ => raise (TypeError "can't multiply sequence by non-int")
        end
    end;
  items ←
    match y with
    | PyList l => mret l
    | _ => raise (TypeError "object does not support item assignment")
    end;
  y ← lift (encode_for_losses losses items);
  BaseWrapper_check_output_model_compatibility (PyList y).

Definition _check_output_model_compatibility (y : pyval) : M pyval :=
  match k_kind K with
  | KerasClassifier => KerasClassifier_check_output_model_compatibility y
  | _ => BaseWrapper_check_output_model_compatibility y
  end.

(** [self._pre_process_y(y)], by class. *)
Definition _pre_process_y (y : labels) : result (pyval * extra_args) :=
  match k_kind K with
  | BaseWrapper =>
      let '(y, extra_args) := BaseWrapper_pre_process_y y in
      Ok (PyArr y, extra_args)
  | KerasClassifier =>
      '(y, extra_args) ← KerasClassifier_pre_process_y y;
      Ok (PyList (map (λ b, PyArr (LInt b)) y), extra_args)
  | KerasRegressor =>
      '(y, extra_args) ← KerasRegressor_pre_process_y y;
      Ok (PyList (map PyArr y), extra_args)
  end.

(** [self._post_process_y(y_pred)], by class: the predicted labels and,
    for a classifier, the class probabilities. *)
Definition _post_process_y (y_pred : prediction)
  : M (labels * option (ndarray Q)) :=
  match k_kind K with
  | BaseWrapper =>
      '(y, _) ← lift (BaseWrapper_post_process_y y_pred);
      mret (LFloat y, None)
  | KerasClassifier =>
      d ← get_dict;
      '(y, class_probabilities) ←
        lift (KerasClassifier_post_process_y (lookup_attr d) y_pred);
      mret (LInt y, Some class_probabilities)
  | KerasRegressor =>
      '(y, _) ← lift (KerasRegressor_post_process_y y_pred);
      mret (LFloat y, None)
  end.

(** [BaseWrapper._pre_process_X] *)
Definition _pre_process_X (X : ndarray Q) : ndarray Q * extra_args := (X, []).

(** [BaseWrapper.fit] *)
Definition BaseWrapper_fit (X : ndarray Q) (y : labels)
    (sample_weight : option (ndarray Q)) (kwargs : gmap string pyval)
  : M unit :=
  '(X, y) ← lift (ext_check_X_y E X y);
  X ← lift (ext_check_array E X);
  sample_weight ←
    match sample_weight with
    | Some w => w' ← lift (ext_check_sample_weight E w X); mret (Some w')
    | None => mret None
    end;
  let '(X, _) := _pre_process_X X in
  '(y, extra_args) ← lift (_pre_process_y y);
  _ ← for_each (λ kv, setattr kv.1 kv.2) extra_args;
  model_ ← _build_keras_model (PyArr (LFloat X)) y sample_weight kwargs;
  _ ← setattr "model_" (PyModel model_);
  y ← _check_output_model_compatibility y;
  _fit_keras_model (PyArr (LFloat X)) y sample_weight kwargs.

(** [KerasRegressor.fit] first casts [y] to floating point. *)
Definition to_float64 (y : labels) : labels :=
  match y with
  | LInt a => LFloat (amap inject_Z a)
  | LFloat a => LFloat a
  end.

Definition fit (X : ndarray Q) (y : labels)
    (sample_weight : option (ndarray Q)) (kwargs : gmap string pyval)
  : M unit :=
  match k_kind K with
  | KerasRegressor => BaseWrapper_fit X (to_float64 y) sample_weight kwargs
  | _ => BaseWrapper_fit X y sample_weight kwargs
  end.

Definition not_fitted_error : exn :=
  NotFittedError ("Estimator " ++ k_repr K
                  ++ " needs to be fit before `predict` can be called").

(** [self.model_.predict] with [X] and [pred_args] unpacked. *)
Definition call_model_predict (m : keras_model) (X : ndarray Q)
    (pred_args : gmap string pyval) : M prediction :=
  if bool_decide (is_Some (pred_args !! "x")) then
    raise (TypeError "predict() got multiple values for argument 'x'")
  else
    _ ← emit (EvModelPredict m X pred_args);
    lift (ext_predict E m X pred_args).

(** The common body of [predict] and [predict_proba]. *)
Definition predict_outputs (X : ndarray Q) (kwargs : gmap string pyval)
  : M (labels * option (ndarray Q)) :=
  is_fitted_ ← getattr "is_fitted_";
  if negb (truthy is_fitted_) then raise not_fitted_error
  else
    X ← lift (ext_check_array E X);
    let '(X, _) := _pre_process_X X in
    model_ ← getattr_model "model_";
    d ← get_dict;
    let kwargs := _filter_params d (km_predict_sig model_) (Some kwargs) in
    let predict_args := _filter_params d (km_predict_sig model_) None in
    let pred_args := dict_unpack [predict_args; kwargs] in
    y_pred ← call_model_predict model_ X pred_args;
    _post_process_y y_pred.

(** [BaseWrapper.predict] *)
Definition predict (X : ndarray Q) (kwargs : gmap string pyval)
  : M labels :=
  '(y, _) ← predict_outputs X kwargs;
  mret y.

(** [KerasClassifier.predict_proba] *)
Definition predict_proba (X : ndarray Q) (kwargs : gmap string pyval)
  : M (ndarray Q) :=
  '(_, extra_args) ← predict_outputs X kwargs;
  match extra_args with
  | Some class_probabilities => mret class_probabilities
  | None => raise (AttributeError "predict_proba")
  end.

(** [BaseWrapper.score] *)
Definition BaseWrapper_score (X : ndarray Q) (y : labels)
    (sample_weight : option (ndarray Q)) (kwargs : gmap string pyval)
  : M Q :=
  sample_weight ←
    match sample_weight with
    | Some w => w' ← lift (ext_check_sample_weight E w X); mret (Some w')
    | None => mret None
    end;
  '(_, extra_args) ← lift (_pre_process_y y);
  y_pred ← predict X kwargs;
  lift (ext_score E (k_kind K) y y_pred sample_weight).

(** [KerasRegressor.score] adds a warning for other losses. *)
Definition score (X : ndarray Q) (y : labels)
    (sample_weight : option (ndarray Q)) (kwargs : gmap string pyval)
  : M Q :=
  res ← BaseWrapper_score X y sample_weight kwargs;
  match k_kind K with
  | KerasRegressor =>
      model_ ← getattr_model "model_";
      loss ← lift (km_loss model_);
      match loss with
      | LossSingle "mean_squared_error"
      | LossSingle "root_mean_squared_error" => mret res
      | _ =>
          _ ← emit (EvWarn "R^2 is used to compute the score, it is advisable to use a compatible loss function.");
          mret res
      end
  | _ => mret res
  end.

(** [BaseWrapper._get_param_names] *)
Definition str_items (v : pyval) : list string :=
  match v with
  | PyList l =>
      omap (λ x, match x with PyStr s => Some s | _ => None end) l
  | _ => []
  end.

Definition _get_param_names : M (list string) :=
  _sk_params ← getattr "_sk_params";
  if truthy _sk_params then
    mret (sorted (k_init_params K ++ str_items _sk_params))
  else mret (sorted (k_init_params K)).

(** [BaseWrapper.get_params] *)
Fixpoint get_params_loop (deep : bool) (keys : list string)
    (out : gmap string pyval) : M (gmap string pyval) :=
  match keys with
  | [] => mret out
  | key :: keys' =>
      value ← getattr key;
      let out :=
        match (if deep then ext_get_params E value else None) with
        | Some deep_items =>
            foldl (λ o kv, <[key ++ "__" ++ kv.1 := kv.2]> o) out deep_items
        | None => out
        end in
      get_params_loop deep keys' (<[key := value]> out)
  end.

Definition get_params (deep : bool) : M (gmap string pyval) :=
  keys ← _get_param_names;
  get_params_loop deep keys ∅.

Definition invalid_parameter (key : string) : exn :=
  ValueError ("Invalid parameter " ++ key ++ " for estimator " ++ k_repr K
              ++ ". Check the list of available parameters with `estimator.get_params().keys()`.").

(** The first loop of [set_params], with [valid_params] and
    [nested_params] as loop state. *)
Fixpoint set_params_loop (params : list (string * pyval))
    (valid_params : gmap string pyval)
    (nested_params : list (string * list (string * pyval)))
  : M (gmap string pyval * list (string * list (string * pyval))) :=
  match params with
  | [] => mret (valid_params, nested_params)
  | (key, value) :: params' =>
      let '(key, delim, sub_key) := partition key in
      match valid_params !! key with
      | None => raise (invalid_parameter key)
      | Some _ =>
          if delim : bool then
            let sub := default [] (alist_get key nested_params) in
            set_params_loop params' valid_params
              (alist_set key (alist_set sub_key value sub) nested_params)
          else
            _ ← setattr key value;
            set_params_loop params' (<[key := value]> valid_params)
              nested_params
      end
  end.

(** [valid_params[key].set_params] with [sub_params]: the nested object is
    changed in place, so the attribute that holds it sees the change. *)
Definition set_nested (valid_params : gmap string pyval)
    (entry : string * list (string * pyval)) : M unit :=
  match valid_params !! entry.1 with
  | None => raise (TypeError "KeyError")
  | Some target =>
      _ ← emit (EvNestedSetParams target entry.2);
      target' ← lift (ext_set_params E target entry.2);
      setattr entry.1 target'
  end.

(** [BaseWrapper.set_params] *)
Definition set_params (params : list (string * pyval)) : M unit :=
  match params with
  | [] => mret ()
  | _ =>
      valid_params ← get_params true;
      '(valid_params, nested_params) ← set_params_loop params valid_params [];
      for_each (set_nested valid_params) nested_params
  end.

(** [BaseWrapper.__init__] *)
Definition __init__ (build_fn : pyval) (sk_params : list (string * pyval))
  : M unit :=
  _ ← setattr "build_fn" build_fn;
  _ ← match sk_params with
      | [] => mret ()
      | _ =>
          _ ← for_each (λ kv, setattr kv.1 kv.2) sk_params;
          setattr "_sk_params" (PyList (map (λ kv, PyStr kv.1) sk_params))
      end;
  params ← get_params false;
  for_each
    (λ param,
       h ← hasattr param;
       if h : bool then mret ()
       else raise (RuntimeError "Parameter %s was not assigned, this is req. by sklearn"))
    (map fst (map_to_list params)).

End WithClass.

Definition initial_state : state :=
  {| self_dict := ∅;
     legal_params_fns := _legal_params_fns_initial;
     log := [] |}.

End Facade.
Export Facade.

(** ** Vocabulary of the statements *)

Module Statements.

(** The events a run appended to the log. *)
Definition new_events (s s' : state) : list event :=
  drop (length (log s)) (log s').

(** The keyword pool of [_fit_keras_model] once [sample_weight] is in, and
    the keyword arguments it hands to the model's [fit]. *)
Definition fit_kwargs (sample_weight : option (ndarray Q))
    (kwargs : gmap string pyval) : gmap string pyval :=
  match sample_weight with
  | Some w => <["sample_weight" := PyArr (LFloat w)]> kwargs
  | None => kwargs
  end.

Definition fit_args_of (d : gmap string pyval) (m : keras_model)
    (sample_weight : option (ndarray Q)) (kwargs : gmap string pyval)
  : gmap string pyval :=
  dict_unpack [_filter_params d (km_fit_sig m) None;
               _filter_params d (km_fit_sig m)
                 (Some (fit_kwargs sample_weight kwargs))].

Definition with_log (s : state) (l : list event) : state :=
  {| self_dict := self_dict s;
     legal_params_fns := legal_params_fns s;
     log := l |}.

(** Well-formed blocks, label arrays and predictions: every row of a matrix
    has as many entries as the matrix has columns. *)
Definition block_wf {C} (b : nat * list (list C)) : Prop :=
  Forall (λ r, length r = b.1) b.2.

(** Applying a function to every entry of a block of columns. *)
Definition block_map {A B} (f : A → B) (b : nat * list (list A))
  : nat * list (list B) :=
  (b.1, map (map f) b.2).

Definition lwf (y : labels) : Prop :=
  match y with LInt a => wf a | LFloat a => wf a end.

Definition pred_wf (p : prediction) : Prop :=
  match p with
  | PredArr a => wf a
  | PredList l => Forall wf l
  end.

(** *** The label round trip *)

(** The output of a model that has learnt its targets exactly: a sigmoid
    head reproduces a 0/1 target column (binary and label-indicator blocks),
    a softmax head the one-hot rows of a class-index column. *)
Definition ideal_output (cls_type_ : string) (block : ndarray Z)
  : result (ndarray Q) :=
  if decide (cls_type_ = "binary") then Ok (amap inject_Z block)
  else if decide (cls_type_ = "multilabel-indicator") then
    Ok (amap inject_Z block)
  else r ← to_categorical block; Ok (amap inject_Z r).

(** The one-hot row of class [k] among [width] classes. *)
Definition indicator_row (width k : nat) : list Z :=
  map (λ j, if decide (j = k) then 1%Z else 0%Z) (seq 0 width).

(** [model.predict] returns a bare array for a single head. *)
Definition as_prediction (outs : list (ndarray Q)) : prediction :=
  match outs with
  | [a] => PredArr a
  | _ => PredList outs
  end.

(** Pre-process [y] as [fit] does, store the label attributes on the
    estimator, let the ideal model answer, post-process as [predict] does. *)
Definition classifier_round_trip (K : klass) (s : state) (y : ndarray Z)
  : result labels :=
  '(blocks, extra_args) ← KerasClassifier_pre_process_y (LInt y);
  let s1 := (for_each (λ kv, setattr kv.1 kv.2) extra_args s).2 in
  outs ← traverse (ideal_output (type_of_target (lreshape_if_1d (LInt y))))
           blocks;
  r ← (_post_process_y K (as_prediction outs) s1).1;
  Ok r.1.

(** For a regressor [fit] casts to floating point first, and the ideal
    model returns the single block it was given. *)
Definition float_values (y : labels) : ndarray Q :=
  match y with
  | LInt a => amap inject_Z a
  | LFloat a => a
  end.

Definition regressor_round_trip (y : labels) : result (ndarray Q) :=
  '(blocks, _) ← KerasRegressor_pre_process_y (to_float64 y);
  match blocks with
  | [LFloat block] =>
      r ← KerasRegressor_post_process_y (PredArr block); Ok r.1
  | _ => Raise (TypeError "one floating-point block expected")
  end.

(** A name the callable declares: positional-or-keyword or keyword-only. *)
Definition declared {V} (fn : signature) (kv : string * V) : Prop :=
  kv.1 ∈ sig_args fn ∨ kv.1 ∈ sig_kwonlyargs fn.

#[global] Instance declared_dec {V} fn (kv : string * V) :
  Decision (declared fn kv).
Proof. unfold declared. apply _. Defined.

(** The state after [_legal_params_fns.append(r)]. *)
Definition registered_state (s : state) (r : registered) : state :=
  (register r s).2.

(** The keyword arguments [_build_keras_model] hands to the build callable,
    and what the call returns. *)
Definition build_args_of (d : gmap string pyval) (fn : signature)
    (X y : pyval) (sw : option (ndarray Q)) (kwargs : gmap string pyval)
  : gmap string pyval :=
  dict_unpack
    [_filter_params d fn None;
     _filter_params d fn (Some (<["X" := X]> {["y" := y]}));
     _filter_params d fn (Some {["sample_weight" := sample_weight_value sw]});
     _filter_params d fn (Some kwargs)].

Definition build_result (E : externals) (f : final_build_fn)
    (args : gmap string pyval) : result keras_model :=
  (call_final_build_fn E f args initial_state).1.

(** The error [score] ends with on an estimator that is not fitted: the
    first of sample-weight validation, label pre-processing and the
    not-fitted check of [predict] that fails. *)
Definition unfitted_score_error (K : klass) (E : externals) (X : ndarray Q)
    (y : labels) (sample_weight : option (ndarray Q)) : exn :=
  match (match sample_weight with
         | Some w => ext_check_sample_weight E w X
         | None => Ok X
         end) with
  | Raise e => e
  | Ok _ =>
      match _pre_process_y K y with
      | Raise e => e
      | Ok _ => not_fitted_error K
      end
  end.

(** The assignments [set_params] has made when it reaches an invalid name:
    the top-level entries before it, in order. *)
Definition assign_top_level (params : list (string * pyval))
    (d : gmap string pyval) : gmap string pyval :=
  foldl (λ d kv,
           let '(key, delim, _) := partition kv.1 in
           if delim : bool then d else <[key := kv.2]> d)
        d params.

Definition with_dict (s : state) (d : gmap string pyval) : state :=
  {| self_dict := d;
     legal_params_fns := legal_params_fns s;
     log := log s |}.

End Statements.
Export Statements.

(** ** Concrete estimators used to exercise the statements *)

Module Examples.

Definition sig_of (args : list string) (varkw : option string) : signature :=
  {| sig_args := args; sig_varargs := None;
     sig_kwonlyargs := []; sig_varkw := varkw |}.

(** The signatures of [Model.fit], [Model.evaluate] and [Model.predict]. *)
Definition keras_fit_sig : signature :=
  sig_of ["self"; "x"; "y"; "batch_size"; "epochs"; "verbose"; "callbacks";
          "validation_split"; "validation_data"; "shuffle"; "class_weight";
          "sample_weight"; "initial_epoch"; "steps_per_epoch";
          "validation_steps"; "validation_freq"; "max_queue_size"; "workers";
          "use_multiprocessing"] (Some "kwargs").

Definition keras_evaluate_sig : signature :=
  sig_of ["self"; "x"; "y"; "batch_size"; "verbose"; "sample_weight"; "steps";
          "callbacks"; "max_queue_size"; "workers"; "use_multiprocessing"] None.

Definition keras_predict_sig : signature :=
  sig_of ["self"; "x"; "batch_size"; "verbose"; "steps"; "callbacks";
          "max_queue_size"; "workers"; "use_multiprocessing"] None.

Definition binary_config : training_config :=
  {| tc_loss := LossSingle "binary_crossentropy";
     tc_optimizer := "adam"; tc_metrics := ["accuracy"] |}.

(** A compiled model with one output head. *)
Definition one_head_model : keras_model :=
  {| km_name := "<Sequential>";
     km_fit_sig := keras_fit_sig;
     km_evaluate_sig := keras_evaluate_sig;
     km_predict_sig := keras_predict_sig;
     km_outputs := 1;
     km_training_config := Some binary_config |}.

(** A compiled model with a softmax head and categorical crossentropy. *)
Definition categorical_model : keras_model :=
  {| km_name := "<Softmax>";
     km_fit_sig := keras_fit_sig;
     km_evaluate_sig := keras_evaluate_sig;
     km_predict_sig := keras_predict_sig;
     km_outputs := 1;
     km_training_config :=
       Some {| tc_loss := LossSingle "categorical_crossentropy";
               tc_optimizer := "adam"; tc_metrics := [] |} |}.

(** A model whose [fit] takes no [sample_weight]. *)
Definition unweighted_model : keras_model :=
  {| km_name := "<Custom>";
     km_fit_sig := sig_of ["self"; "x"; "y"; "epochs"] None;
     km_evaluate_sig := keras_evaluate_sig;
     km_predict_sig := keras_predict_sig;
     km_outputs := 1;
     km_training_config := Some binary_config |}.

(** A model that was never compiled. *)
Definition uncompiled_model : keras_model :=
  {| km_name := "<Uncompiled>";
     km_fit_sig := keras_fit_sig;
     km_evaluate_sig := keras_evaluate_sig;
     km_predict_sig := keras_predict_sig;
     km_outputs := 1;
     km_training_config := None |}.

Definition build_function : callable :=
  {| cb_isfunction := true;
     cb_sig := sig_of ["hidden_units"; "X"] (Some "kwargs");
     cb_id := 1 |}.

Definition a_classifier : klass :=
  {| k_kind := KerasClassifier; k_repr := "<KerasClassifier>";
     k_call := None; k_init_params := ["build_fn"] |}.

Definition a_regressor : klass :=
  {| k_kind := KerasRegressor; k_repr := "<KerasRegressor>";
     k_call := None; k_init_params := ["build_fn"] |}.

(** Collaborators that accept every input: the build callable returns
    [built], the model answers every prediction request with [out]. *)
Definition collaborators_with (built : keras_model) (out : prediction)
  : externals :=
  {| ext_check_X_y := λ X y, Ok (X, y);
     ext_check_array := λ X, Ok X;
     ext_check_sample_weight := λ w _, Ok w;
     ext_build := λ _ _, Ok built;
     ext_fit := λ _ _ _ _, Ok (PyObject 0);
     ext_predict := λ _ _ _, Ok out;
     ext_score := λ _ _ _ _, Ok (1 # 1);
     ext_get_params := λ _, None;
     ext_set_params := λ v _, Ok v |}.

(** By default the model predicts the two probabilities 0.7 and 0.2. *)
Definition collaborators (built : keras_model) : externals :=
  collaborators_with built (PredArr (Arr2 1 [[7 # 10]; [2 # 10]])).

Definition state_of (d : gmap string pyval) : state :=
  {| self_dict := d;
     legal_params_fns := _legal_params_fns_initial;
     log := [] |}.

(** An estimator constructed with [epochs=5, hidden_units=3], not fitted. *)
Definition fresh_dict : gmap string pyval :=
  <["build_fn" := PyCallable build_function]>
    (<["epochs" := PyInt 5]>
       (<["hidden_units" := PyInt 3]>
          {["_sk_params" := PyList [PyStr "epochs"; PyStr "hidden_units"]]})).

Definition fresh : state := state_of fresh_dict.

(** The same estimator holding a model. *)
Definition holding (m : keras_model) : state :=
  state_of (<["model_" := PyModel m]> fresh_dict).

(** The classifier holding the softmax model, with the label attributes of
    a three-class target. *)
Definition multiclass_state : state :=
  state_of (<["model_" := PyModel categorical_model]>
              (<["n_outputs_" := PyInt 1]>
                 (<["n_outputs_keras_" := PyInt 1]> fresh_dict))).

Definition X2 : ndarray Q := Arr2 1 [[1 # 1]; [2 # 1]].

Definition X1 : ndarray Q := Arr2 1 [[1 # 1]].

Definition X3 : ndarray Q := Arr2 1 [[1 # 1]; [2 # 1]; [3 # 1]].

(** The classifier after [fit(X2, [1, 0])]. *)
Definition fitted_classifier : state :=
  (fit a_classifier (collaborators one_head_model) X2
     (LInt (Arr1 [1; 0]%Z)) None ∅ fresh).2.

(** The regressor after [fit(X1, [0.7])]. *)
Definition fitted_regressor : state :=
  (fit a_regressor (collaborators one_head_model) X1
     (LFloat (Arr1 [7 # 10])) None ∅ fresh).2.

Definition weights2 : ndarray Q := Arr1 [1 # 1; 3 # 1].

End Examples.


(** * Properties *)

Open Scope list_scope.

Section RouterLemmas.
Context {V : Type}.
Implicit Types (d pool acc : gmap string V) (fn : signature).

Lemma filter_params_lookup d fn p k :
  _filter_params d fn p !! k
  = if has_arg fn k false then pool_of d p !! k else None.
Proof.
  unfold _filter_params.
  generalize (pool_of d p). intros m. revert k.
  apply (map_fold_weak_ind (λ res m, ∀ k, res !! k = if has_arg fn k false then m !! k else None)).
  - intros k. rewrite !lookup_empty. by destruct (has_arg fn k false).
  - intros i x m' r Hi IH k.
    destruct (has_arg fn i false) eqn:Hargi.
    + destruct (decide (i = k)) as [->|Hne].
      * rewrite !lookup_insert_eq. by rewrite Hargi.
      * rewrite !lookup_insert_ne by done. apply IH.
    + rewrite IH. destruct (decide (i = k)) as [->|Hne].
      * by rewrite Hargi.
      * by rewrite lookup_insert_ne.
Qed.

Lemma dict_update_lookup acc d k :
  dict_update acc d !! k = match d !! k with Some v => Some v | None => acc !! k end.
Proof.
  unfold dict_update. revert k.
  apply (map_fold_weak_ind (λ res m, ∀ k, res !! k = match m !! k with Some v => Some v | None => acc !! k end)).
  - intros k. by rewrite lookup_empty.
  - intros i x m r Hi IH k.
    destruct (decide (i = k)) as [->|Hne].
    + by rewrite !lookup_insert_eq.
    + rewrite !lookup_insert_ne by done. apply IH.
Qed.

Lemma dict_unpack_snoc (ds : list (gmap string V)) d k :
  dict_unpack (ds ++ [d]) !! k
  = match d !! k with Some v => Some v | None => dict_unpack ds !! k end.
Proof.
  unfold dict_unpack. rewrite foldl_app. simpl. apply dict_update_lookup.
Qed.

Lemma has_arg_declared fn k :
  has_arg fn k false = true ↔ k ∈ sig_args fn ∨ k ∈ sig_kwonlyargs fn.
Proof.
  unfold has_arg. simpl.
  rewrite orb_true_iff, !bool_decide_eq_true. done.
Qed.
End RouterLemmas.

Section FacadeLemmas.
Context (K : klass) (E : externals).

Lemma pool_of_nonempty {V} (d pool : gmap string V) k v :
  pool !! k = Some v → pool_of d (Some pool) = pool.
Proof.
  intros Hk. unfold pool_of. case_bool_decide as Hs; [|done].
  apply map_size_empty_iff in Hs. subst. by rewrite lookup_empty in Hk.
Qed.

Lemma fit_keras_model_run X y sw kwargs s m :
  self_dict s !! "model_" = Some (PyModel m) →
  let kw := _filter_params (self_dict s) (km_fit_sig m) (Some (fit_kwargs sw kwargs)) in
  let args := fit_args_of (self_dict s) m sw kwargs in
  _fit_keras_model K E X y sw kwargs s =
    if (bool_decide (is_Some sw) && negb (bool_decide (is_Some (kw !! "sample_weight"))))%bool then
      (Raise (ValueError ("Parameter `sample_weight` is unsupported by Keras model " +:+ km_name m)), s)
    else if (bool_decide (is_Some (args !! "x")) || bool_decide (is_Some (args !! "y")))%bool then
      (Raise (TypeError "fit() got multiple values for keyword argument"), s)
    else
      match ext_fit E m X y args with
      | Ok h =>
          (Ok (), {| self_dict := <["is_fitted_" := PyBool true]> (<["history_" := h]> (self_dict s));
                     legal_params_fns := legal_params_fns s;
                     log := log s ++ [EvModelFit m X y args] |})
      | Raise e => (Raise e, with_log s (log s ++ [EvModelFit m X y args]))
      end.
Proof.
  intros Hm kw args. subst kw args. unfold fit_args_of.
  unfold _fit_keras_model, getattr_model, getattr, lookup_attr, get_dict.
  unfold mbind, M_bind, mret, M_ret. simpl. rewrite Hm. simpl.
  fold (fit_kwargs sw kwargs).
  match goal with |- context [if ?b then _ else _] => destruct b end;
    [reflexivity|].
  unfold call_model_fit.
  match goal with |- context [if ?b then _ else _] => destruct b end;
    [reflexivity|].
  unfold mbind, M_bind, emit, lift, setattr, with_log. simpl.
  match goal with |- context [ext_fit ?a ?b ?c ?d ?e] => destruct (ext_fit a b c d e) end;
    reflexivity.
Qed.

Lemma new_events_app s s' l : log s' = (log s ++ l)%list → new_events s s' = l.
Proof. intros H. unfold new_events. rewrite H. by rewrite drop_app_length. Qed.

Lemma new_events_same s : new_events s s = [].
Proof. apply new_events_app. by rewrite app_nil_r. Qed.

Lemma dict_unpack_pair_lookup {V} (base override : gmap string V) k :
  dict_unpack [base; override] !! k
  = match override !! k with Some v => Some v | None => base !! k end.
Proof.
  change [base; override] with ([base] ++ [override]).
  rewrite dict_unpack_snoc. destruct (override !! k); [done|].
  change [base] with ([] ++ [base]). rewrite dict_unpack_snoc.
  destruct (base !! k); [done|]. apply lookup_empty.
Qed.

Lemma pool_of_fit_kwargs (d : gmap string pyval) w kwargs :
  pool_of d (Some (fit_kwargs (Some w) kwargs)) = fit_kwargs (Some w) kwargs.
Proof. apply (pool_of_nonempty _ _ "sample_weight" (PyArr (LFloat w))), lookup_insert_eq. Qed.

Lemma fit_kwargs_sample_weight w kwargs :
  fit_kwargs (Some w) kwargs !! "sample_weight" = Some (PyArr (LFloat w)).
Proof. apply lookup_insert_eq. Qed.

Lemma fit_args_lookup d m sw kwargs k :
  fit_args_of d m sw kwargs !! k
  = if has_arg (km_fit_sig m) k false then
      match pool_of d (Some (fit_kwargs sw kwargs)) !! k with
      | Some v => Some v
      | None => d !! k
      end
    else None.
Proof.
  unfold fit_args_of. rewrite dict_unpack_pair_lookup, !filter_params_lookup.
  simpl. by destruct (has_arg (km_fit_sig m) k false).
Qed.

Lemma fit_args_absent d m sw kwargs k :
  d !! k = None → kwargs !! k = None → k ≠ "sample_weight" →
  fit_args_of d m sw kwargs !! k = None.
Proof.
  intros Hd Hkw Hk. rewrite fit_args_lookup.
  destruct (has_arg (km_fit_sig m) k false); [|done].
  assert (fit_kwargs sw kwargs !! k = None) as Hf.
  { destruct sw; simpl; [by rewrite lookup_insert_ne|done]. }
  unfold pool_of. destruct (bool_decide _); by rewrite ?Hf, ?Hd.
Qed.

(** What a call of [_fit_keras_model] can do. *)
Lemma fit_keras_model_cases X y sw kwargs s m :
  self_dict s !! "model_" = Some (PyModel m) →
  let r := _fit_keras_model K E X y sw kwargs s in
  let args := fit_args_of (self_dict s) m sw kwargs in
  (r.2 = s ∧ is_ok r.1 = false)
  ∨ (log r.2 = (log s ++ [EvModelFit m X y args])%list
     ∧ r.1 = (_ ← ext_fit E m X y args; Ok ())).
Proof.
  intros Hm r args. subst r. rewrite (fit_keras_model_run _ _ _ _ _ m Hm).
  fold args.
  repeat match goal with |- context [if ?b then _ else _] => destruct b end;
    [by left|by left|].
  right. destruct (ext_fit E m X y args); done.
Qed.

(** When nothing stands in the way, the model's [fit] is invoked once. *)
Lemma fit_keras_model_invoked X y sw kwargs s m :
  self_dict s !! "model_" = Some (PyModel m) →
  (sw = None ∨ has_arg (km_fit_sig m) "sample_weight" false = true) →
  (∀ name, name = "x" ∨ name = "y" →
     kwargs !! name = None ∧ self_dict s !! name = None) →
  new_events s (_fit_keras_model K E X y sw kwargs s).2
  = [EvModelFit m X y (fit_args_of (self_dict s) m sw kwargs)].
Proof.
  intros Hm Hsw Hxy. apply new_events_app.
  rewrite (fit_keras_model_run _ _ _ _ _ m Hm).
  assert ((bool_decide (is_Some sw)
           && negb (bool_decide (is_Some
                (_filter_params (self_dict s) (km_fit_sig m)
                   (Some (fit_kwargs sw kwargs)) !! "sample_weight"))))%bool
          = false) as ->.
  { destruct sw as [w|]; [|done]. destruct Hsw as [|Hyes]; [done|].
    rewrite filter_params_lookup, Hyes, pool_of_fit_kwargs,
      fit_kwargs_sample_weight. done. }
  destruct (Hxy "x" (or_introl eq_refl)) as [Hx Hdx].
  destruct (Hxy "y" (or_intror eq_refl)) as [Hy Hdy].
  rewrite !fit_args_absent by done. cbn [orb bool_decide].
  replace (bool_decide (is_Some (@None pyval))) with false by done.
  cbn [orb]. by destruct (ext_fit E m X y _).
Qed.

End FacadeLemmas.

Lemma bind_run {A B} (m : M A) (k : A → M B) s :
  (m ≫= k) s
  = match m s with
    | (Ok a, s') => k a s'
    | (Raise e, s') => (Raise e, s')
    end.
Proof. reflexivity. Qed.

Section BuildLemmas.
Context (K : klass) (E : externals).

(** [_check_build_fn] raises and leaves the state alone, or settles on a
    callable and appends it to the registry. *)
Lemma check_build_fn_cases bf s :
  (∃ e, _check_build_fn K bf s = (Raise e, s))
  ∨ (∃ f, _check_build_fn K bf s = (Ok f, registered_state s (BuildFn f))).
Proof.
  unfold _check_build_fn, has_call, registered_state.
  destruct bf as [| | | | | | |c|m|]; simpl;
    try (left; eexists; reflexivity).
  - destruct (k_call K); [right|left]; eexists; reflexivity.
  - destruct (cb_isfunction c).
    + destruct (k_call K); simpl; [left|right]; eexists; reflexivity.
    + destruct (k_call K); simpl; [left|right]; eexists; reflexivity.
  - right; eexists; reflexivity.
Qed.

Lemma call_final_build_fn_run f args s :
  call_final_build_fn E f args s
  = (build_result E f args, with_log s (log s ++ [EvBuild f args])).
Proof.
  unfold build_result, call_final_build_fn. rewrite !bind_run.
  unfold emit, with_log.
  destruct f; cbn; try (by destruct (ext_build _ _ _)).
  destruct (args !! "build_fn") as [[]|]; reflexivity.
Qed.

Lemma build_keras_model_run X y sw kwargs s bf f :
  self_dict s !! "build_fn" = Some bf →
  _check_build_fn K bf s = (Ok f, registered_state s (BuildFn f)) →
  let args := build_args_of (self_dict s) (signature_of f) X y sw kwargs in
  let r := _build_keras_model K E X y sw kwargs s in
  new_events s r.2 = [EvBuild f args] ∧ r.1 = build_result E f args.
Proof.
  intros Hbf Hchk args r. subst r.
  unfold _build_keras_model.
  rewrite bind_run. unfold getattr, lookup_attr. rewrite Hbf.
  rewrite bind_run, Hchk.
  rewrite bind_run. unfold get_dict.
  change (self_dict (registered_state s (BuildFn f))) with (self_dict s).
  fold (build_args_of (self_dict s) (signature_of f) X y sw kwargs). fold args.
  rewrite bind_run, call_final_build_fn_run.
  destruct (build_result E f args); cbn;
    (split; [apply new_events_app; reflexivity|reflexivity]).
Qed.

Lemma build_result_clone args :
  build_result E ClonePrebuilt args
  = match args !! "build_fn" with
    | Some (PyModel m) => _clone_prebuilt_model m
    | Some _ =>
        Raise (ValueError "Expected `model` argument to be a `Model` instance")
    | None =>
        Raise (TypeError "missing 1 required positional argument: 'build_fn'")
    end.
Proof.
  unfold build_result, call_final_build_fn. rewrite bind_run. cbn.
  by destruct (args !! "build_fn") as [[]|].
Qed.

(** With a pre-built model in [self.build_fn], the build arguments carry it
    unless a keyword argument named [build_fn] replaces it. *)
Lemma build_args_prebuilt (d : gmap string pyval) X y sw kwargs v :
  d !! "build_fn" = Some v → kwargs !! "build_fn" = None →
  build_args_of d clone_sig X y sw kwargs !! "build_fn" = Some v.
Proof.
  intros Hd Hkw. unfold build_args_of.
  assert (Hhas : has_arg clone_sig "build_fn" false = true) by done.
  match goal with |- dict_unpack [?a; ?b; ?c; ?d] !! _ = _ =>
    change [a; b; c; d] with ([a; b; c] ++ [d]) end.
  rewrite dict_unpack_snoc, filter_params_lookup, Hhas.
  unfold pool_of at 1. destruct (bool_decide (size kwargs = 0));
    [by rewrite Hd|]. rewrite Hkw.
  match goal with |- dict_unpack [?a; ?b; ?c] !! _ = _ =>
    change [a; b; c] with ([a; b] ++ [c]) end.
  rewrite dict_unpack_snoc, filter_params_lookup, Hhas.
  rewrite (pool_of_nonempty _ _ "sample_weight" (sample_weight_value sw))
    by apply lookup_singleton_eq.
  rewrite lookup_singleton_ne by done.
  rewrite dict_unpack_pair_lookup, !filter_params_lookup, Hhas.
  rewrite (pool_of_nonempty _ _ "X" X) by apply lookup_insert_eq.
  rewrite lookup_insert_ne, lookup_singleton_ne by done.
  done.
Qed.

End BuildLemmas.

Section ArrayLemmas.
Context {A : Type}.
Implicit Types (a : ndarray A) (rows : list (list A)).

Lemma concat_singletons_length rows :
  Forall (λ r, length r = 1) rows → length (concat rows) = length rows.
Proof.
  induction 1 as [|r rows Hr _ IH]; [done|].
  cbn. rewrite length_app, Hr, IH. done.
Qed.

(** [np.squeeze] removes exactly the axes of length one. *)
Lemma squeeze_shape a :
  wf a → shape (squeeze a) = filter (λ n, n ≠ 1) (shape a).
Proof.
  destruct a as [x|v|m rows]; intros Hwf; [done| |].
  - destruct v as [|x [|x' v]]; cbn; repeat case_decide; done || lia.
  - cbn in Hwf. destruct rows as [|r [|r' rows]].
    + cbn. repeat case_decide; done || lia.
    + apply Forall_cons in Hwf as [Hr _]. cbn [squeeze].
      destruct (decide (m = 1)) as [->|Hm].
      * destruct r as [|x [|x' r]]; try done;
          cbn; repeat case_decide; done || lia.
      * cbn. rewrite Hr. repeat case_decide; done || lia.
    + cbn [squeeze]. destruct (decide (m = 1)) as [->|Hm].
      * cbn [shape]. rewrite concat_singletons_length by done.
        cbn. repeat case_decide; done || lia.
      * cbn. repeat case_decide; done || lia.
Qed.

Lemma squeeze_no_singleton a : wf a → 1 ∉ shape (squeeze a).
Proof.
  intros Hwf. rewrite squeeze_shape by done.
  intros [H _]%list_elem_of_filter. by apply H.
Qed.
End ArrayLemmas.

Lemma bind_Ok {A B} (m : result A) (k : A → result B) b :
  m ≫= k = Ok b → ∃ a, m = Ok a ∧ k a = Ok b.
Proof. destruct m as [a|e]; [eauto|done]. Qed.

Lemma traverse_Ok_Forall2 {A B} (f : A → result B) l l' :
  traverse f l = Ok l' → Forall2 (λ x y, f x = Ok y) l l'.
Proof.
  revert l'. induction l as [|x l IH]; intros l' H; cbn in H.
  - injection H as <-. constructor.
  - destruct (f x) as [y|] eqn:Hx; [|done]. cbn in H.
    destruct (traverse f l) as [ys|]; [|done]. cbn in H.
    injection H as <-. constructor; [done|]. by apply IH.
Qed.

Section WfLemmas.
Context {A B : Type}.

Lemma as_columns_wf (a : ndarray A) : wf a → block_wf (as_columns a).
Proof.
  destruct a as [x|v|m rows]; intros Hwf; unfold block_wf; cbn.
  - by repeat constructor.
  - apply Forall_fmap, Forall_true. done.
  - done.
Qed.

Lemma concat_axis1_wf (a b r : nat * list (list A)) :
  block_wf a → block_wf b → concat_axis1 a b = Ok r → block_wf r.
Proof.
  unfold concat_axis1, block_wf. intros Ha Hb.
  case_decide; [|done]. intros [= <-]. cbn.
  destruct a as [m rows], b as [m' rows']. cbn in *.
  revert rows' Hb H. induction Ha as [|r rows Hr _ IH]; intros rows' Hb Hlen.
  - by destruct rows'.
  - destruct Hb as [|r' rows' Hr' Hb]; [done|]. cbn.
    constructor; [by rewrite length_app, Hr, Hr'|].
    apply IH; [done|]. cbn in Hlen. lia.
Qed.

Lemma hstack_wf (bs : list (nat * list (list A))) r :
  Forall block_wf bs → hstack bs = Ok r → block_wf r.
Proof.
  revert r. induction bs as [|b bs IH]; intros r Hbs H; [done|].
  apply Forall_cons in Hbs as [Hb Hbs]. cbn in H.
  destruct bs as [|b' bs].
  - by injection H as <-.
  - apply bind_Ok in H as (r' & Hr' & H).
    eapply concat_axis1_wf; [exact Hb| |exact H]. by apply IH.
Qed.

Lemma column_stack_wf (tup : list (ndarray A)) y :
  Forall wf tup → column_stack tup = Ok y → wf y.
Proof.
  intros Htup H. unfold column_stack in H.
  apply bind_Ok in H as (r & Hr & [= <-]).
  apply (hstack_wf _ _ (proj2 (Forall_fmap _ _ _)
                          (Forall_impl _ _ _ Htup as_columns_wf)) Hr).
Qed.

Lemma amap_wf (f : A → B) (a : ndarray A) : wf a → wf (amap f a).
Proof.
  destruct a as [x|v|m rows]; [done..|]. cbn. intros Hwf.
  apply Forall_fmap. eapply Forall_impl; [exact Hwf|].
  intros r Hr. cbn. by rewrite length_map.
Qed.

Lemma atraverse_wf (f : A → result B) (a : ndarray A) b :
  wf a → atraverse f a = Ok b → wf b.
Proof.
  destruct a as [x|v|m rows]; cbn; intros Hwf H.
  - apply bind_Ok in H as (y & _ & [= <-]). done.
  - apply bind_Ok in H as (y & _ & [= <-]). done.
  - apply bind_Ok in H as (rs & Hrs & [= <-]). cbn.
    apply traverse_Ok_Forall2 in Hrs.
    induction Hrs as [|r r' rows rows' Hr _ IH]; [done|].
    apply Forall_cons in Hwf as [Hlen Hwf].
    constructor; [|by apply IH].
    apply traverse_Ok_Forall2, Forall2_length in Hr. congruence.
Qed.
End WfLemmas.

Section PostProcessLemmas.

Lemma iter_wf {A} (a : ndarray A) l : iter a = Ok l → Forall wf l.
Proof.
  destruct a as [x|v|m rows]; [done|..]; intros [= <-];
    apply Forall_fmap, Forall_true; done.
Qed.

Lemma post_process_output_wf cls_type_ y_ classes_ pred y_i :
  wf y_ → post_process_output cls_type_ y_ classes_ = Ok (pred, y_i) →
  wf pred ∧ wf y_i.
Proof.
  intros Hwf. unfold post_process_output.
  assert (Harg : ∀ {A} (leb : A → A → bool) (a : ndarray A) idx p,
            argmax_axis1 leb a = Ok idx → take_along classes_ idx = Ok p → wf p).
  { intros A leb a idx p Hidx Hp. destruct a; try done.
    cbn in Hidx. apply bind_Ok in Hidx as (v & _ & [= <-]).
    cbn in Hp. apply bind_Ok in Hp as (w & _ & [= <-]). done. }
  repeat case_decide; try done.
  - intros Hrun. apply bind_Ok in Hrun as (m & Hm & Hrun).
    case_decide.
    + apply bind_Ok in Hrun as (p & Hp & Hrun).
      apply bind_Ok in Hrun as (yi & Hyi & [= <- <-]). split.
      * eapply atraverse_wf; [|exact Hp]. by apply amap_wf.
      * destruct y_ as [| |m' rows]; try done. cbn in Hyi.
        apply bind_Ok in Hyi as (r & Hr & [= <-]).
        eapply (concat_axis1_wf (m', map (map one_minus) rows) (m', rows));
          [| |exact Hr]; [|exact Hwf].
        apply (amap_wf one_minus (Arr2 m' rows) Hwf).
    + apply bind_Ok in Hrun as (idx & Hidx & Hrun).
      apply bind_Ok in Hrun as (p & Hp & [= <- <-]). split; [|done].
      by eapply Harg.
  - intros Hrun. apply bind_Ok in Hrun as (idx & Hidx & Hrun).
    apply bind_Ok in Hrun as (p & Hp & [= <- <-]). split; [|done].
    by eapply Harg.
  - intros [= <- <-]. split; [|done]. by apply amap_wf.
  - intros Hrun. apply bind_Ok in Hrun as (idx & Hidx & Hrun).
    apply bind_Ok in Hrun as (p & Hp & [= <- <-]). split; [|done].
    by eapply Harg.
Qed.

Lemma post_process_loop_wf cls_type_ y cls_ preds ys :
  Forall wf y → post_process_loop cls_type_ y cls_ = Ok (preds, ys) →
  Forall wf preds ∧ Forall wf ys.
Proof.
  revert cls_ preds ys. induction y as [|y_ y IH]; intros cls_ preds ys Hwf H.
  - cbn in H. injection H as <- <-. done.
  - destruct cls_ as [|classes_ cls_].
    + cbn in H. injection H as <- <-. done.
    + cbn [post_process_loop] in H.
      apply Forall_cons in Hwf as [Hy_ Hwf].
      apply bind_Ok in H as ([pred y_i] & Hout & H).
      apply bind_Ok in H as ([preds' ys'] & Hloop & [= <- <-]).
      destruct (post_process_output_wf _ _ _ _ _ Hy_ Hout).
      destruct (IH _ _ _ Hwf Hloop). by split; constructor.
Qed.

Lemma classifier_post_process_squeezed getattr y r p :
  pred_wf y → KerasClassifier_post_process_y getattr y = Ok (r, p) →
  ∃ a b, wf a ∧ r = squeeze a ∧ wf b ∧ p = squeeze b.
Proof.
  intros Hwf H. unfold KerasClassifier_post_process_y in H.
  apply bind_Ok in H as (n & _ & H).
  apply bind_Ok in H as (c & _ & H).
  apply bind_Ok in H as (cls_ & _ & H).
  apply bind_Ok in H as (t & _ & H).
  apply bind_Ok in H as ([preds ys] & Hloop & H).
  apply bind_Ok in H as (b & Hb & H).
  apply bind_Ok in H as (a & Ha & [= <- <-]).
  apply post_process_loop_wf in Hloop as [Hpreds Hys].
  - exists a, b. repeat split; by eapply column_stack_wf.
  - destruct y; cbn in Hwf; [by constructor|done].
Qed.

End PostProcessLemmas.

Lemma bind_run_Ok {A B} (m : M A) (k : A → M B) s b s' :
  (m ≫= k) s = (Ok b, s') → ∃ a s1, m s = (Ok a, s1) ∧ k a s1 = (Ok b, s').
Proof.
  rewrite bind_run. destruct (m s) as [[a|e] s1]; [eauto|done].
Qed.

Section PredictLemmas.
Context (K : klass) (E : externals).

Lemma post_process_y_squeezed p s yl probs s' :
  pred_wf p → _post_process_y K p s = (Ok (yl, probs), s') →
  ∃ a, lwf a ∧ yl = lsqueeze a.
Proof.
  intros Hwf. unfold _post_process_y. destruct (k_kind K).
  - intros H. apply bind_run_Ok in H as ([y ea] & s1 & Hpost & H).
    injection H as <- _ _. unfold lift in Hpost. injection Hpost as Hpost _.
    unfold BaseWrapper_post_process_y in Hpost.
    apply bind_Ok in Hpost as (tup & Htup & Hpost).
    apply bind_Ok in Hpost as (a & Ha & [= <- _]).
    exists (LFloat a). split; [|done]. cbn.
    eapply column_stack_wf; [|exact Ha].
    destruct p; [by eapply iter_wf|]. by injection Htup as <-.
  - intros H. apply bind_run_Ok in H as (d & s1 & _ & H).
    apply bind_run_Ok in H as ([y pr] & s2 & Hpost & H).
    injection H as <- _ _. unfold lift in Hpost. injection Hpost as Hpost _.
    apply classifier_post_process_squeezed in Hpost
      as (a & b & Ha & -> & _); [|done].
    by exists (LInt a).
  - intros H. apply bind_run_Ok in H as ([y ea] & s1 & Hpost & H).
    injection H as <- _ _. unfold lift in Hpost. injection Hpost as Hpost _.
    destruct p as [a|]; [|done]. injection Hpost as <- _.
    exists (LFloat (amap astype_float64 a)). split; [|done].
    by apply amap_wf.
Qed.

Lemma predict_outputs_Ok X kwargs s r s' :
  predict_outputs K E X kwargs s = (Ok r, s') →
  ∃ m X' args p s1,
    ext_predict E m X' args = Ok p ∧ _post_process_y K p s1 = (Ok r, s').
Proof.
  unfold predict_outputs. intros H.
  apply bind_run_Ok in H as (f & s1 & _ & H).
  destruct (negb (truthy f)); [done|].
  apply bind_run_Ok in H as (X' & s2 & _ & H).
  cbn [_pre_process_X] in H.
  apply bind_run_Ok in H as (m & s3 & _ & H).
  apply bind_run_Ok in H as (d & s4 & _ & H).
  apply bind_run_Ok in H as (p & s5 & Hcall & H).
  unfold call_model_predict in Hcall.
  destruct (bool_decide _); [done|].
  apply bind_run_Ok in Hcall as (u & s6 & _ & Hcall).
  unfold lift in Hcall. injection Hcall as Hp _.
  eauto 10.
Qed.

End PredictLemmas.

Section Claims.
Context (K : klass) (E : externals).

(** C2, as the code has it: [_filter_params] returns exactly the entries of
    the pool whose names the callable declares (positional-or-keyword or
    keyword-only) when the pool is not empty, and those entries of the
    instance dictionary when the pool is empty or absent; in every case a
    name is in the result only if the callable declares it, and variadic
    parameters make no difference. *)
Theorem filter_params_declared_subset {V} (d : gmap string V) (fn : signature) :
  (∀ pool, pool ≠ ∅ → _filter_params d fn (Some pool) = filter (declared fn) pool)
  ∧ _filter_params d fn (Some ∅) = filter (declared fn) d
  ∧ _filter_params d fn None = filter (declared fn) d
  ∧ (∀ p k v, _filter_params d fn p !! k = Some v →
       (k ∈ sig_args fn ∨ k ∈ sig_kwonlyargs fn) ∧ pool_of d p !! k = Some v)
  ∧ (∀ p fn', sig_args fn' = sig_args fn →
       sig_kwonlyargs fn' = sig_kwonlyargs fn →
       _filter_params d fn' p = _filter_params d fn p).
Proof.
  assert (Hgen : ∀ p, _filter_params d fn p = filter (declared fn) (pool_of d p)).
  { intros p. apply map_eq. intros k.
    rewrite filter_params_lookup.
    destruct (has_arg fn k false) eqn:Hk.
    - apply has_arg_declared in Hk.
      destruct (pool_of d p !! k) as [v|] eqn:Hv.
      + symmetry. by apply map_lookup_filter_Some.
      + symmetry. apply map_lookup_filter_None. left. done.
    - symmetry. apply map_lookup_filter_None. right. intros v _ Hd.
      unfold declared in Hd. cbn in Hd.
      apply has_arg_declared in Hd. congruence. }
  split; [|split; [|split; [|split]]].
  - intros pool Hne. rewrite Hgen. f_equal. unfold pool_of.
    case_bool_decide as Hs; [|done]. by apply map_size_empty_iff in Hs.
  - by rewrite Hgen.
  - by rewrite Hgen.
  - intros p k v. rewrite filter_params_lookup.
    destruct (has_arg fn k false) eqn:Hk; [|done].
    apply has_arg_declared in Hk. done.
  - intros p fn' Ha Hk. apply map_eq. intros k.
    rewrite !filter_params_lookup. unfold has_arg. cbn. by rewrite Ha, Hk.
Qed.

(** The claim as stated fails on an empty pool: the instance attributes are
    filtered in its place, so the result is not a subset of the pool. *)
Lemma filter_params_empty_pool_counterexample :
  let d : gmap string pyval := {["epochs" := PyInt 5]} in
  _filter_params d Examples.keras_fit_sig (Some ∅) !! "epochs" = Some (PyInt 5)
  ∧ (∅ : gmap string pyval) !! "epochs" = None.
Proof. split; reflexivity. Qed.

Lemma predict_outputs_not_fitted X kwargs s :
  (∀ v, self_dict s !! "is_fitted_" = Some v → truthy v = false) →
  predict_outputs K E X kwargs s = (Raise (not_fitted_error K), s).
Proof.
  intros Hun. unfold predict_outputs. rewrite bind_run.
  unfold getattr, lookup_attr.
  destruct (self_dict s !! "is_fitted_") as [v|] eqn:Hv.
  - by rewrite (Hun v eq_refl).
  - reflexivity.
Qed.

(** C5, as the code has it: on an estimator whose [is_fitted_] is unset or
    false, [predict] and [predict_proba] raise NotFittedError and change
    nothing, so the model is not invoked; [score] also raises and changes
    nothing, with NotFittedError unless the validation of [sample_weight] or
    the pre-processing of [y], which come first, raise their own error. *)
Theorem not_fitted_gate X y sw kwargs s
    (Hunfitted : ∀ v, self_dict s !! "is_fitted_" = Some v → truthy v = false) :
  predict K E X kwargs s = (Raise (not_fitted_error K), s)
  ∧ predict_proba K E X kwargs s = (Raise (not_fitted_error K), s)
  ∧ score K E X y sw kwargs s = (Raise (unfitted_score_error K E X y sw), s)
  ∧ ((∀ w, sw = Some w → is_ok (ext_check_sample_weight E w X) = true) →
     is_ok (_pre_process_y K y) = true →
     unfitted_score_error K E X y sw = not_fitted_error K).
Proof.
  pose proof (predict_outputs_not_fitted X kwargs s Hunfitted) as Hp.
  assert (Hpredict : predict K E X kwargs s = (Raise (not_fitted_error K), s)).
  { unfold predict. by rewrite bind_run, Hp. }
  split; [done|]. split.
  { unfold predict_proba. by rewrite bind_run, Hp. }
  split.
  - unfold score, BaseWrapper_score, unfitted_score_error.
    do 2 rewrite bind_run.
    destruct sw as [w|].
    + rewrite bind_run. unfold lift at 1.
      destruct (ext_check_sample_weight E w X); [|done].
      cbn [mret M_ret]. rewrite bind_run. unfold lift at 1.
      destruct (_pre_process_y K y) as [[]|]; [|done].
      by rewrite bind_run, Hpredict.
    + cbn [mret M_ret]. rewrite bind_run. unfold lift at 1.
      destruct (_pre_process_y K y) as [[]|]; [|done].
      by rewrite bind_run, Hpredict.
  - intros Hsw Hpre. unfold unfitted_score_error.
    destruct sw as [w|].
    + specialize (Hsw w eq_refl).
      destruct (ext_check_sample_weight E w X); [|done].
      by destruct (_pre_process_y K y).
    + by destruct (_pre_process_y K y).
Qed.

Lemma get_params_loop_state deep keys out s :
  (get_params_loop K E deep keys out s).2 = s.
Proof.
  revert out. induction keys as [|key keys IH]; intros out; [done|].
  cbn [get_params_loop]. rewrite bind_run. unfold getattr.
  destruct (lookup_attr K (self_dict s) key); [apply IH|done].
Qed.

Lemma get_params_state deep s : (get_params K E deep s).2 = s.
Proof.
  unfold get_params. rewrite bind_run. unfold _get_param_names.
  rewrite bind_run. unfold getattr.
  destruct (lookup_attr K (self_dict s) "_sk_params") as [v|]; [|done].
  destruct (truthy v); cbn [mret M_ret]; apply get_params_loop_state.
Qed.

Lemma with_dict_same s : with_dict s (self_dict s) = s.
Proof. by destruct s. Qed.

Lemma set_params_loop_invalid pre key value post valid nested s :
  Forall (λ kv, is_Some (valid !! (partition kv.1).1.1)) pre →
  valid !! (partition key).1.1 = None →
  set_params_loop K (pre ++ (key, value) :: post) valid nested s
  = (Raise (invalid_parameter K (partition key).1.1),
     with_dict s (assign_top_level pre (self_dict s))).
Proof.
  revert valid nested s.
  induction pre as [|[k v] pre IH]; intros valid nested s Hpre Hkey.
  - cbn [app set_params_loop assign_top_level foldl].
    destruct (partition key) as [[top delim] sub] eqn:Hpart.
    cbn [fst] in Hkey. cbv iota beta. rewrite Hkey.
    by rewrite with_dict_same.
  - apply Forall_cons in Hpre as [Hk Hpre].
    cbn [app set_params_loop assign_top_level foldl fst snd].
    cbn [fst] in Hk.
    destruct (partition k) as [[top delim] sub] eqn:Hpart.
    cbn [fst] in Hk. destruct Hk as [x Hx].
    cbv iota beta. rewrite Hx.
    destruct delim.
    + apply IH; done.
    + rewrite bind_run. unfold setattr.
      rewrite IH.
      * reflexivity.
      * eapply Forall_impl; [exact Hpre|]. intros kv [z Hz].
        destruct (decide (top = (partition kv.1).1.1)) as [<-|Hne].
        -- rewrite lookup_insert_eq. eauto.
        -- rewrite lookup_insert_ne by done. eauto.
      * rewrite lookup_insert_ne; [done|].
        intros Heq. rewrite Heq in Hx. congruence.
Qed.

(** C8, as the code has it: a call of [set_params] that reaches a name whose
    top-level part is not a parameter of the estimator raises the ValueError
    that names the parameter and the estimator; the top-level parameters
    given before that name have been assigned by then, nothing else has
    changed, and no nested estimator has been touched.  When no top-level
    parameter precedes the invalid name, the estimator is unchanged. *)
Theorem set_params_invalid_name pre key value post valid s
    (Hvalid : (get_params K E true s).1 = Ok valid)
    (Hpre : Forall (λ kv, is_Some (valid !! (partition kv.1).1.1)) pre)
    (Hkey : valid !! (partition key).1.1 = None) :
  let r := set_params K E (pre ++ (key, value) :: post) s in
  r = (Raise (ValueError ("Invalid parameter " +:+ (partition key).1.1
                +:+ " for estimator " +:+ k_repr K
                +:+ ". Check the list of available parameters with `estimator.get_params().keys()`.")),
       with_dict s (assign_top_level pre (self_dict s)))
  ∧ new_events s r.2 = []
  ∧ (Forall (λ kv, (partition kv.1).1.2 = true) pre → r.2 = s).
Proof.
  intros r.
  assert (Hr : r = (Raise (invalid_parameter K (partition key).1.1),
                    with_dict s (assign_top_level pre (self_dict s)))).
  { subst r. unfold set_params.
    destruct (pre ++ (key, value) :: post) as [|p ps] eqn:Hparams.
    { by destruct pre. }
    rewrite <- Hparams. rewrite bind_run.
    pose proof (get_params_state true s) as Hst.
    destruct (get_params K E true s) as [res s'].
    cbn [fst snd] in Hvalid, Hst. subst res s'.
    rewrite bind_run, set_params_loop_invalid by done. done. }
  split; [exact Hr|]. rewrite Hr. cbn [snd]. split.
  - apply new_events_app. cbn. by rewrite app_nil_r.
  - intros Hnested.
    assert (∀ d, assign_top_level pre d = d) as ->; [|apply with_dict_same].
    clear -Hnested.
    induction Hnested as [|[k v] l Hk _ IH]; intros d; [reflexivity|].
    cbn [assign_top_level foldl fst snd]. cbn [fst snd] in Hk.
    destruct (partition k) as [[top delim] sub]. cbn [fst snd] in Hk.
    rewrite Hk. apply IH.
Qed.


(** The output count that [_check_output_model_compatibility] compares with
    [len(y)] is the one [_pre_process_y] derived from [y] itself. *)
Lemma pre_process_sets_own_count y yb extra_args :
  k_kind K ≠ BaseWrapper →
  _pre_process_y K y = Ok (yb, extra_args) →
  ∃ n, py_len yb = Ok n
       ∧ alist_get "n_outputs_keras_" extra_args = Some (PyInt (Z.of_nat n)).
Proof.
  intros Hk. unfold _pre_process_y. destruct (k_kind K); [done| |].
  - intros H. apply bind_Ok in H as ([blocks ea] & Hpre & [= <- <-]).
    unfold KerasClassifier_pre_process_y in Hpre. cbn [BaseWrapper_pre_process_y] in Hpre.
    apply bind_Ok in Hpre as (n_out & _ & Hpre).
    apply bind_Ok in Hpre as ([[nk classes] ys] & Hbranch & Hpre).
    assert (nk = length ys) as ->.
    { repeat case_decide; try done.
      - by injection Hbranch as <- _ <-.
      - by injection Hbranch as <- _ <-.
      - apply bind_Ok in Hbranch as (bl & _ & [= <- _ <-]). done.
      - apply bind_Ok in Hbranch as (bl & _ & [= <- _ <-]). done. }
    exists (length ys).
    destruct classes as [|c [|c' cs]]; injection Hpre as <- <-;
      (split; [cbn [py_len]; by rewrite length_map|reflexivity]).
  - intros H. apply bind_Ok in H as ([blocks ea] & Hpre & [= <- <-]).
    unfold KerasRegressor_pre_process_y in Hpre. cbn [BaseWrapper_pre_process_y] in Hpre.
    apply bind_Ok in Hpre as (n_out & _ & [= <- <-]).
    by exists 1.
Qed.

(** So the RuntimeError of the count check cannot be reached from there,
    whatever the model is. *)
Lemma count_check_passes yb n s msg :
  self_dict s !! "n_outputs_keras_" = Some (PyInt (Z.of_nat n)) →
  py_len yb = Ok n →
  (BaseWrapper_check_output_model_compatibility K yb s).1
  ≠ Raise (RuntimeError msg).
Proof.
  intros Hattr Hlen. unfold BaseWrapper_check_output_model_compatibility.
  rewrite bind_run. unfold getattr, lookup_attr. rewrite Hattr.
  rewrite bind_run. unfold lift at 1. rewrite Hlen.
  rewrite Z.eqb_refl. cbn [negb].
  case_decide.
  - unfold lift, py_first. cbn [fst].
    destruct (py_iter yb) as [[|x l]|e] eqn:Hiter; cbn; try done.
    destruct yb as [| | | |a|l|l| | |]; try done.
    cbn in Hiter. destruct (rows_of a) eqn:Hrows; [done|].
    cbn in Hiter. injection Hiter as <-.
    destruct a as [a|a]; cbn in Hrows; destruct a; done.
  - rewrite bind_run. unfold lift.
    destruct (py_iter yb) as [l|e] eqn:Hiter; cbn; try done.
    destruct yb as [| | | |a|l|l| | |]; try done.
    cbn in Hiter. destruct (rows_of a) eqn:Hrows; [done|].
    cbn in Hiter. injection Hiter as <-.
    destruct a as [a|a]; cbn in Hrows; destruct a; done.
Qed.

Lemma encode_for_losses_spec losses items out :
  encode_for_losses losses items = Ok out →
  length out = length items
  ∧ ∀ i y_, items !! i = Some y_ →
      match losses !! i with
      | Some l =>
          if is_categorical_crossentropy l then
            ∃ a, y_ = PyArr a
                 ∧ ((is_single_column a = Ok true
                     ∧ ∃ c, to_categorical_labels a = Ok c
                            ∧ out !! i = Some (PyArr c))
                    ∨ (is_single_column a = Ok false ∧ out !! i = Some y_))
          else out !! i = Some y_
      | None => out !! i = Some y_
      end.
Proof.
  revert items out.
  induction losses as [|loss losses IH]; intros items out Hrun.
  - destruct items; injection Hrun as <-; (split; [done|]);
      intros i y_ Hi; by rewrite lookup_nil.
  - destruct items as [|y0 items]; [injection Hrun as <-; by split|].
    cbn [encode_for_losses] in Hrun.
    apply bind_Ok in Hrun as (y_i & Hy_i & Hrun).
    apply bind_Ok in Hrun as (rest & Hrest & [= <-]).
    destruct (IH _ _ Hrest) as [Hlen Hpt].
    split; [cbn; by rewrite Hlen|].
    intros [|i] y_ Hi; [|by apply Hpt].
    injection Hi as ->. cbn [lookup list_lookup].
    destruct (is_categorical_crossentropy loss); [|by injection Hy_i as <-].
    destruct y_ as [| | | |a| | | | |]; try done.
    exists a. split; [done|].
    apply bind_Ok in Hy_i as (col & Hcol & Hy_i).
    destruct col.
    + left. split; [done|].
      apply bind_Ok in Hy_i as (c & Hc & [= <-]). eauto.
    + right. by injection Hy_i as <-.
Qed.

(** C9: in a classifier, [_check_output_model_compatibility] first walks
    the label blocks together with the losses of the compiled model (the
    list [model.loss], or the single loss repeated [n_outputs_] times): a
    block that is one-dimensional or has a single column and is paired with
    categorical crossentropy is replaced by its [to_categorical] expansion,
    every other block is kept; only then does the output-count check run,
    on the resulting list. *)
Theorem loss_dependent_encoding s m loss n items
    (Hk : k_kind K = KerasClassifier)
    (Hm : self_dict s !! "model_" = Some (PyModel m))
    (Hloss : km_loss m = Ok loss)
    (Hn : self_dict s !! "n_outputs_" = Some (PyInt n)) :
  let losses :=
    match loss with
    | LossList ls => ls
    | LossSingle l => replicate (Z.to_nat n) l
    end in
  _check_output_model_compatibility K (PyList items) s
  = match encode_for_losses losses items with
    | Ok y' => BaseWrapper_check_output_model_compatibility K (PyList y') s
    | Raise e => (Raise e, s)
    end
  ∧ ∀ out, encode_for_losses losses items = Ok out →
      length out = length items
      ∧ ∀ i y_, items !! i = Some y_ →
          (∀ l a, losses !! i = Some l →
             is_categorical_crossentropy l = true →
             y_ = PyArr a → is_single_column a = Ok true →
             ∃ c, to_categorical (as_int a) = Ok c
                  ∧ out !! i = Some (PyArr (LFloat (amap inject_Z c))))
          ∧ (∀ l a, losses !! i = Some l →
               is_categorical_crossentropy l = true →
               y_ = PyArr a → is_single_column a = Ok false →
               out !! i = Some y_)
          ∧ ((∀ l, losses !! i = Some l →
                is_categorical_crossentropy l = false) →
             out !! i = Some y_).
Proof.
  intros losses. split.
  - unfold _check_output_model_compatibility,
      KerasClassifier_check_output_model_compatibility.
    rewrite Hk, bind_run. unfold getattr_model.
    rewrite bind_run. unfold getattr, lookup_attr. rewrite Hm.
    cbn [mret M_ret]. rewrite bind_run. unfold lift at 1. rewrite Hloss.
    subst losses. destruct loss as [l|ls].
    + rewrite !bind_run. unfold getattr, lookup_attr. rewrite Hn.
      cbn [mret M_ret]. unfold lift. rewrite !bind_run.
      cbn [mret M_ret].
      destruct (encode_for_losses _ items); reflexivity.
    + rewrite !bind_run. cbn [mret M_ret]. unfold lift. rewrite !bind_run.
      cbn [mret M_ret].
      destruct (encode_for_losses _ items); reflexivity.
  - intros out Hout.
    destruct (encode_for_losses_spec _ _ _ Hout) as [Hlen Hpt].
    split; [done|]. intros i y_ Hi. specialize (Hpt i y_ Hi).
    split; [|split].
    + intros l a Hl Hcce -> Hcol. rewrite Hl, Hcce in Hpt.
      destruct Hpt as (a' & [= <-] & [(_ & c & Hc & Hout')|(Hcol' & _)]);
        [|congruence].
      unfold to_categorical_labels in Hc.
      apply bind_Ok in Hc as (r & Hr & [= <-]). eauto.
    + intros l a Hl Hcce -> Hcol. rewrite Hl, Hcce in Hpt.
      destruct Hpt as (a' & [= <-] & [(Hcol' & _)|(_ & Hout')]);
        [congruence|done].
    + intros Hother. destruct (losses !! i) as [l|]; [|done].
      by rewrite (Hother l eq_refl) in Hpt.
Qed.


(** C3: when dictionaries are merged the later one wins on every key they
    share; so a keyword argument of [fit] that the model's [fit] declares
    reaches it with the keyword's value, whatever the instance attribute of
    the same name holds, and the same holds for the build callable. *)
Theorem kwarg_overrides_attribute X y sw kwargs s m k v w
    (Hm : self_dict s !! "model_" = Some (PyModel m))
    (Hkw : kwargs !! k = Some v)
    (Hattr : self_dict s !! k = Some w)
    (Hlegal : has_arg (km_fit_sig m) k false = true)
    (Hk : k ≠ "sample_weight") :
  let r := _fit_keras_model K E X y sw kwargs s in
  (∀ (V : Type) (base override : gmap string V) k' v',
     override !! k' = Some v' → dict_unpack [base; override] !! k' = Some v')
  ∧ (∀ m' X' y' args,
       EvModelFit m' X' y' args ∈ new_events s r.2 → args !! k = Some v)
  ∧ ((sw = None ∨ has_arg (km_fit_sig m) "sample_weight" false = true) →
     (∀ name, name = "x" ∨ name = "y" →
        kwargs !! name = None ∧ self_dict s !! name = None) →
     ∃ args, new_events s r.2 = [EvModelFit m X y args] ∧ args !! k = Some v)
  ∧ (∀ bf f,
       self_dict s !! "build_fn" = Some bf →
       _check_build_fn K bf s = (Ok f, registered_state s (BuildFn f)) →
       has_arg (signature_of f) k false = true →
       ∃ args,
         new_events s (_build_keras_model K E X y sw kwargs s).2
         = [EvBuild f args]
         ∧ args !! k = Some v).
Proof.
  intros r.
  assert (Hargs : fit_args_of (self_dict s) m sw kwargs !! k = Some v).
  { rewrite fit_args_lookup, Hlegal.
    assert (fit_kwargs sw kwargs !! k = Some v) as Hf.
    { destruct sw; simpl; [by rewrite lookup_insert_ne|done]. }
    by rewrite (pool_of_nonempty _ _ k v Hf), Hf. }
  split; [|split; [|split]].
  - intros V base override k' v' Hov.
    by rewrite dict_unpack_pair_lookup, Hov.
  - intros m' X' y' args Hin.
    destruct (fit_keras_model_cases K E X y sw kwargs s m Hm)
      as [[Heq _]|[Hlog _]]; fold r in Heq || fold r in Hlog.
    + rewrite Heq, new_events_same in Hin. by apply elem_of_nil in Hin.
    + rewrite (new_events_app _ _ _ Hlog) in Hin.
      apply list_elem_of_singleton in Hin. by injection Hin as -> -> -> ->.
  - intros Hsw Hxy. exists (fit_args_of (self_dict s) m sw kwargs).
    split; [|done]. by apply fit_keras_model_invoked.
  - intros bf f Hbf Hchk Hf.
    destruct (build_keras_model_run K E X y sw kwargs s bf f Hbf Hchk)
      as [Hev _].
    eexists. split; [exact Hev|].
    unfold build_args_of.
    match goal with |- dict_unpack [?a; ?b; ?c; ?d] !! _ = _ =>
      change [a; b; c; d] with ([a; b; c] ++ [d]) end.
    rewrite dict_unpack_snoc, filter_params_lookup, Hf.
    by rewrite (pool_of_nonempty _ _ k v Hkw), Hkw.
Qed.

(** C7: in [_fit_keras_model] a non-null [sample_weight] reaches the model's
    [fit] as the keyword [sample_weight], a null one adds nothing to the
    keywords, and a non-null one for a model whose [fit] does not declare
    [sample_weight] raises the ValueError naming the parameter, with nothing
    invoked and the estimator unchanged. *)
Theorem sample_weight_routing X y sw kwargs s m
    (Hm : self_dict s !! "model_" = Some (PyModel m)) :
  let r := _fit_keras_model K E X y sw kwargs s in
  (∀ w, sw = Some w → has_arg (km_fit_sig m) "sample_weight" false = false →
     r = (Raise (ValueError ("Parameter `sample_weight` is unsupported by Keras model "
                             +:+ km_name m)), s)
     ∧ new_events s r.2 = [])
  ∧ (∀ w m' X' y' args, sw = Some w →
       EvModelFit m' X' y' args ∈ new_events s r.2 →
       args !! "sample_weight" = Some (PyArr (LFloat w)))
  ∧ (∀ m' X' y' args, sw = None →
       kwargs !! "sample_weight" = None → self_dict s !! "sample_weight" = None →
       EvModelFit m' X' y' args ∈ new_events s r.2 →
       args !! "sample_weight" = None)
  ∧ (∀ w, sw = Some w → has_arg (km_fit_sig m) "sample_weight" false = true →
       kwargs !! "x" = None → kwargs !! "y" = None →
       self_dict s !! "x" = None → self_dict s !! "y" = None →
       ∃ args, new_events s r.2 = [EvModelFit m X y args]
               ∧ args !! "sample_weight" = Some (PyArr (LFloat w))).
Proof.
  intros r.
  pose proof (fit_keras_model_run K E X y sw kwargs s m Hm) as Hrun.
  pose proof (fit_keras_model_cases K E X y sw kwargs s m Hm) as Hcases.
  simpl in Hrun, Hcases. fold r in Hrun, Hcases.
  assert (Hsw : ∀ w, sw = Some w →
            fit_args_of (self_dict s) m sw kwargs !! "sample_weight"
            = if has_arg (km_fit_sig m) "sample_weight" false
              then Some (PyArr (LFloat w)) else None).
  { intros w ->. rewrite fit_args_lookup, pool_of_fit_kwargs.
    by rewrite fit_kwargs_sample_weight. }
  split; [|split; [|split]].
  - intros w -> Hno. rewrite Hrun.
    rewrite filter_params_lookup, Hno. simpl.
    split; [done|]. apply new_events_same.
  - intros w m' X' y' args Hw Hin.
    destruct Hcases as [[Heq _]|[Hlog _]].
    + rewrite Heq, new_events_same in Hin. by apply elem_of_nil in Hin.
    + rewrite (new_events_app _ _ _ Hlog) in Hin.
      apply list_elem_of_singleton in Hin. injection Hin as -> -> -> ->.
      rewrite (Hsw w Hw).
      subst sw. rewrite Hrun in Hlog.
      rewrite filter_params_lookup in Hlog. simpl in Hlog.
      destruct (has_arg (km_fit_sig m) "sample_weight" false); [done|].
      simpl in Hlog. apply (f_equal length) in Hlog.
      rewrite length_app in Hlog. simpl in Hlog. lia.
  - intros m' X' y' args -> Hkw Hattr Hin.
    destruct Hcases as [[Heq _]|[Hlog _]].
    + rewrite Heq, new_events_same in Hin. by apply elem_of_nil in Hin.
    + rewrite (new_events_app _ _ _ Hlog) in Hin.
      apply list_elem_of_singleton in Hin. injection Hin as -> -> -> ->.
      rewrite fit_args_lookup. unfold fit_kwargs, pool_of.
      destruct (has_arg (km_fit_sig m) "sample_weight" false); [|done].
      destruct (bool_decide (size kwargs = 0)); rewrite ?Hkw, ?Hattr; done.
  - intros w Hw Hyes Hx Hy Hdx Hdy.
    exists (fit_args_of (self_dict s) m sw kwargs).
    rewrite (Hsw w Hw), Hyes. split; [|done].
    apply new_events_app. rewrite Hrun.
    rewrite filter_params_lookup, Hyes. subst sw.
    rewrite pool_of_fit_kwargs, fit_kwargs_sample_weight.
    rewrite !fit_args_absent by done.
    replace (bool_decide (is_Some (Some w))) with true by done.
    replace (bool_decide (is_Some (Some (PyArr (LFloat w))))) with true by done.
    replace (bool_decide (is_Some (@None pyval))) with false by done.
    cbn [negb andb orb].
    by destruct (ext_fit E m X y _).
Qed.
End Claims.

(** The unweighted model refuses a weight, the Keras model receives it. *)
Lemma sample_weight_routing_witness :
  let K := Examples.a_classifier in
  let E := Examples.collaborators Examples.one_head_model in
  (_fit_keras_model K E PyNone PyNone (Some Examples.weights2) ∅
     (Examples.holding Examples.unweighted_model)
   = (Raise (ValueError "Parameter `sample_weight` is unsupported by Keras model <Custom>"),
      Examples.holding Examples.unweighted_model))
  ∧ ∃ args,
      new_events (Examples.holding Examples.one_head_model)
        (_fit_keras_model K E PyNone PyNone (Some Examples.weights2) ∅
           (Examples.holding Examples.one_head_model)).2
      = [EvModelFit Examples.one_head_model PyNone PyNone args]
      ∧ args !! "sample_weight" = Some (PyArr (LFloat Examples.weights2)).
Proof.
  intros K E. split.
  - destruct (sample_weight_routing K E PyNone PyNone (Some Examples.weights2) ∅
                (Examples.holding Examples.unweighted_model)
                Examples.unweighted_model eq_refl) as (H1 & _).
    exact (proj1 (H1 _ eq_refl eq_refl)).
  - destruct (sample_weight_routing K E PyNone PyNone (Some Examples.weights2) ∅
                (Examples.holding Examples.one_head_model)
                Examples.one_head_model eq_refl) as (_ & _ & _ & H4).
    exact (H4 _ eq_refl eq_refl eq_refl eq_refl eq_refl eq_refl).
Defined.

(** The claim as stated fails for [score]: a classifier that is not fitted,
    asked to score continuous labels, raises the ValueError of the label
    pre-processing, not NotFittedError. *)
Lemma score_not_fitted_counterexample :
  let K := Examples.a_classifier in
  let E := Examples.collaborators Examples.one_head_model in
  self_dict Examples.fresh !! "is_fitted_" = None
  ∧ score K E Examples.X2 (LFloat (Arr1 [1 # 2; 3 # 4])) None ∅ Examples.fresh
    = (Raise (ValueError "Unknown label type: 'continuous'"), Examples.fresh).
Proof. split; reflexivity. Qed.

(** A freshly constructed classifier refuses to predict. *)
Lemma not_fitted_gate_witness :
  let K := Examples.a_classifier in
  let E := Examples.collaborators Examples.one_head_model in
  predict K E Examples.X2 ∅ Examples.fresh
  = (Raise (not_fitted_error K), Examples.fresh)
  ∧ predict_proba K E Examples.X2 ∅ Examples.fresh
    = (Raise (not_fitted_error K), Examples.fresh)
  ∧ score K E Examples.X2 (LInt (Arr1 [1; 0]%Z)) None ∅ Examples.fresh
    = (Raise (not_fitted_error K), Examples.fresh).
Proof.
  intros K E.
  assert (Hun : ∀ v, self_dict Examples.fresh !! "is_fitted_" = Some v
                     → truthy v = false).
  { intros v H. vm_compute in H. discriminate H. }
  destruct (not_fitted_gate K E Examples.X2 (LInt (Arr1 [1; 0]%Z)) None ∅
              Examples.fresh Hun) as (H1 & H2 & H3 & H4).
  split; [exact H1|]. split; [exact H2|].
  rewrite H3, H4; [reflexivity|intros w Hw; discriminate Hw|reflexivity].
Defined.

(** The claim as stated fails when a valid parameter precedes the invalid
    one: [set_params(epochs=10, bogus=1)] raises, and [epochs] is 10
    afterwards. *)
Lemma set_params_not_atomic_counterexample :
  let K := Examples.a_classifier in
  let E := Examples.collaborators Examples.one_head_model in
  let r := set_params K E [("epochs", PyInt 10); ("bogus", PyInt 1)]
             Examples.fresh in
  self_dict Examples.fresh !! "epochs" = Some (PyInt 5)
  ∧ r.1 = Raise (invalid_parameter K "bogus")
  ∧ self_dict r.2 !! "epochs" = Some (PyInt 10).
Proof. repeat split; reflexivity. Qed.

(** An invalid name in first position leaves a fresh classifier as it was. *)
Lemma set_params_invalid_name_witness :
  let K := Examples.a_classifier in
  let E := Examples.collaborators Examples.one_head_model in
  let r := set_params K E [("bogus", PyInt 1); ("epochs", PyInt 10)]
             Examples.fresh in
  r.1 = Raise (invalid_parameter K "bogus") ∧ r.2 = Examples.fresh.
Proof.
  intros K E r.
  pose (valid := <["build_fn" := PyCallable Examples.build_function]>
                   (<["epochs" := PyInt 5]>
                      ({["hidden_units" := PyInt 3]} : gmap string pyval))).
  assert (Hvalid : (get_params K E true Examples.fresh).1 = Ok valid)
    by (vm_compute; reflexivity).
  assert (Hkey : valid !! (partition "bogus").1.1 = None)
    by (vm_compute; reflexivity).
  destruct (set_params_invalid_name K E [] "bogus" (PyInt 1)
              [("epochs", PyInt 10)] valid
              Examples.fresh Hvalid (Forall_nil_2 _) Hkey)
    as (H1 & _ & H3).
  split; [exact (f_equal fst H1)|exact (H3 (Forall_nil_2 _))].
Defined.

(** A keyword argument of [fit] beats the attribute of the same name. *)
Lemma kwarg_overrides_attribute_witness :
  let K := Examples.a_classifier in
  let E := Examples.collaborators Examples.one_head_model in
  let s := Examples.holding Examples.one_head_model in
  self_dict s !! "epochs" = Some (PyInt 5)
  ∧ ∃ args,
      new_events s
        (_fit_keras_model K E PyNone PyNone None {["epochs" := PyInt 9]} s).2
      = [EvModelFit Examples.one_head_model PyNone PyNone args]
      ∧ args !! "epochs" = Some (PyInt 9).
Proof.
  intros K E s.
  assert (Hattr : self_dict s !! "epochs" = Some (PyInt 5))
    by (vm_compute; reflexivity).
  assert (Hkw : ({["epochs" := PyInt 9]} : gmap string pyval) !! "epochs"
                = Some (PyInt 9)) by (vm_compute; reflexivity).
  assert (Hm : self_dict s !! "model_" = Some (PyModel Examples.one_head_model))
    by (vm_compute; reflexivity).
  assert (Hlegal : has_arg (km_fit_sig Examples.one_head_model) "epochs" false
                   = true) by (vm_compute; reflexivity).
  split; [exact Hattr|].
  destruct (kwarg_overrides_attribute K E PyNone PyNone None
              {["epochs" := PyInt 9]} s Examples.one_head_model
              "epochs" (PyInt 9) (PyInt 5)
              Hm Hkw Hattr Hlegal ltac:(discriminate))
    as (_ & _ & H & _).
  apply H; [by left|].
  intros name [-> | ->]; split; vm_compute; reflexivity.
Defined.


(** One sample, one output: the regressor returns a zero-dimensional array. *)
Example predict_single_sample :
  let K := Examples.a_regressor in
  let E := Examples.collaborators_with Examples.one_head_model
             (PredArr (Arr2 1 [[7 # 10]])) in
  (predict K E Examples.X1 ∅ Examples.fitted_regressor).1
  = Ok (LFloat (Arr0 (7 # 10))).
Proof. vm_compute. reflexivity. Qed.

(** C4: the multilabel matrix [[1,0],[0,1],[1,1]] is split into two blocks,
    the build callable returns a model with one output head, and [fit] goes
    through: no error is raised and the model's [fit] receives the tuple of
    the two squeezed blocks. *)
Lemma fit_ignores_model_heads :
  let K := Examples.a_classifier in
  let E := Examples.collaborators Examples.one_head_model in
  let y := LInt (Arr2 2 [[1; 0]; [0; 1]; [1; 1]]%Z) in
  let r := fit K E Examples.X3 y None ∅ Examples.fresh in
  km_outputs Examples.one_head_model = 1
  ∧ r.1 = Ok ()
  ∧ ∃ f build_args fit_args,
      new_events Examples.fresh r.2
      = [EvBuild f build_args;
         EvModelFit Examples.one_head_model (PyArr (LFloat Examples.X3))
           (PyTuple [PyArr (LInt (Arr1 [1; 0; 1]%Z));
                     PyArr (LInt (Arr1 [0; 1; 1]%Z))])
           fit_args].
Proof.
  intros K E y r. split; [reflexivity|]. split; [vm_compute; reflexivity|].
  do 3 eexists. vm_compute. reflexivity.
Qed.

(** With categorical crossentropy the class indices 0, 2, 1 reach the count
    check as one-hot rows. *)
Lemma loss_dependent_encoding_witness :
  let K := Examples.a_classifier in
  let block := PyArr (LInt (Arr2 1 [[0]; [2]; [1]]%Z)) in
  let one_hot := Arr2 3 [[1; 0; 0]; [0; 0; 1]; [0; 1; 0]]%Z in
  encode_for_losses ["categorical_crossentropy"] [block]
  = Ok [PyArr (LFloat (amap inject_Z one_hot))]
  ∧ (_check_output_model_compatibility K (PyList [block])
       Examples.multiclass_state).1
    = Ok (PyArr (LFloat (amap inject_Z one_hot))).
Proof.
  intros K block one_hot.
  assert (Hm : self_dict Examples.multiclass_state !! "model_"
               = Some (PyModel Examples.categorical_model))
    by (vm_compute; reflexivity).
  assert (Hn : self_dict Examples.multiclass_state !! "n_outputs_"
               = Some (PyInt 1)) by (vm_compute; reflexivity).
  destruct (loss_dependent_encoding K Examples.multiclass_state
              Examples.categorical_model
              (LossSingle "categorical_crossentropy") 1 [block]
              eq_refl Hm eq_refl Hn) as [Hcheck _].
  split; [vm_compute; reflexivity|].
  rewrite Hcheck. vm_compute. reflexivity.
Defined.

(** * The label round trip *)
(** ** [np.unique] and [np.searchsorted] *)

Section Vocabulary.
Implicit Types (x c : Z) (l cs : list Z).
Open Scope Z_scope.

Lemma insert_sorted_elem_of x' x l :
  x' ∈ insert_sorted x l ↔ x' = x ∨ x' ∈ l.
Proof.
  induction l as [|h t IH]; cbn.
  - rewrite list_elem_of_singleton, elem_of_nil. tauto.
  - destruct (Z.ltb_spec x h); [by rewrite elem_of_cons|].
    destruct (Z.eqb_spec x h) as [->|Hne].
    + rewrite elem_of_cons. tauto.
    + rewrite !elem_of_cons, IH. tauto.
Qed.

Lemma insert_sorted_sorted x l :
  StronglySorted Z.lt l → StronglySorted Z.lt (insert_sorted x l).
Proof.
  induction 1 as [|h t Ht IH Hh]; cbn.
  - repeat constructor.
  - destruct (Z.ltb_spec x h) as [Hlt|Hge].
    + constructor; [by constructor|].
      constructor; [done|]. eapply Forall_impl; [exact Hh|]. intros; lia.
    + destruct (Z.eqb_spec x h) as [->|Hne]; [by constructor|].
      constructor; [done|]. apply Forall_forall. intros y Hy.
      apply insert_sorted_elem_of in Hy as [->|Hy]; [lia|].
      by apply (proj1 (Forall_forall _ _) Hh).
Qed.

Lemma unique_list_elem_of x l : x ∈ unique_list l ↔ x ∈ l.
Proof.
  induction l as [|h t IH]; [done|]. cbn.
  rewrite insert_sorted_elem_of, elem_of_cons, IH. done.
Qed.

Lemma unique_list_sorted l : StronglySorted Z.lt (unique_list l).
Proof.
  induction l as [|h t IH]; [constructor|]. by apply insert_sorted_sorted.
Qed.

(** A label is found at the index [searchsorted] gives it. *)
Lemma searchsorted1_lookup cs x :
  StronglySorted Z.lt cs → x ∈ cs → cs !! searchsorted1 cs x = Some x.
Proof.
  induction 1 as [|c t Ht IH Hc]; intros Hx; [by apply elem_of_nil in Hx|].
  cbn. apply elem_of_cons in Hx as [->|Hx].
  - by rewrite Z.ltb_irrefl.
  - pose proof (proj1 (Forall_forall _ _) Hc x Hx) as Hlt.
    destruct (Z.ltb_spec c x); [|lia]. by apply IH.
Qed.

Lemma getitem_lookup cs (i : nat) c :
  cs !! i = Some c → getitem cs (Z.of_nat i) = Ok c.
Proof.
  intros Hi. unfold getitem.
  pose proof (lookup_lt_Some _ _ _ Hi) as Hlt.
  destruct (Z.ltb_spec (Z.of_nat i) 0); [lia|].
  destruct (Z.leb_spec 0 (Z.of_nat i)); [|lia].
  destruct (Z.ltb_spec (Z.of_nat i) (Z.of_nat (length cs))); [|lia].
  cbn. by rewrite Nat2Z.id, Hi.
Qed.

Lemma getitem_searchsorted l x :
  x ∈ l →
  getitem (unique_list l) (Z.of_nat (searchsorted1 (unique_list l) x)) = Ok x.
Proof.
  intros Hx. apply getitem_lookup, searchsorted1_lookup.
  - apply unique_list_sorted.
  - by apply unique_list_elem_of.
Qed.

Lemma searchsorted1_lt l x :
  x ∈ l → (searchsorted1 (unique_list l) x < length (unique_list l))%nat.
Proof.
  intros Hx. eapply lookup_lt_Some, searchsorted1_lookup.
  - apply unique_list_sorted.
  - by apply unique_list_elem_of.
Qed.

End Vocabulary.

(** ** Elementwise operations *)

Lemma elem_of_concat {A} (x : A) (ls : list (list A)) :
  x ∈ concat ls ↔ ∃ l, x ∈ l ∧ l ∈ ls.
Proof.
  induction ls as [|l ls IH]; cbn.
  - split; [by intros ?%elem_of_nil|]. by intros (l & _ & ?%elem_of_nil).
  - rewrite elem_of_app, IH. split.
    + intros [Hx|(l' & Hx & Hl')].
      * exists l. split; [done|apply list_elem_of_here].
      * exists l'. split; [done|by apply list_elem_of_further].
    + intros (l' & Hx & [->|Hl']%elem_of_cons); [by left|right; eauto].
Qed.

Lemma traverse_map_id {A B} (f : A → B) (g : B → result A) (l : list A) :
  (∀ x, x ∈ l → g (f x) = Ok x) → traverse g (map f l) = Ok l.
Proof.
  induction l as [|x l IH]; intros H; [done|]. cbn.
  rewrite (H x) by apply list_elem_of_here. cbn.
  rewrite IH by (intros; by apply H, list_elem_of_further). done.
Qed.

Section Elementwise.
Context {A B C : Type}.

Lemma atraverse_amap_id (f : A → B) (g : B → result A) (a : ndarray A) :
  (∀ x, x ∈ ravel a → g (f x) = Ok x) → atraverse g (amap f a) = Ok a.
Proof.
  destruct a as [x|v|m rows]; cbn; intros H.
  - rewrite (H x) by apply list_elem_of_here. done.
  - by rewrite traverse_map_id.
  - rewrite (traverse_map_id (map f) (traverse g)); [done|].
    intros r Hr. apply traverse_map_id. intros x Hx. apply H.
    apply elem_of_concat. eauto.
Qed.

Lemma amap_ext_ravel (f g : A → B) (a : ndarray A) :
  (∀ x, x ∈ ravel a → f x = g x) → amap f a = amap g a.
Proof.
  destruct a as [x|v|m rows]; cbn; intros H.
  - by rewrite H by apply list_elem_of_here.
  - f_equal. apply map_ext_in. intros x Hx. apply H. by apply list_elem_of_In.
  - f_equal. apply map_ext_in. intros r Hr. apply map_ext_in. intros x Hx.
    apply H, elem_of_concat. exists r. by rewrite !list_elem_of_In.
Qed.

Lemma amap_amap (f : A → B) (g : B → C) (a : ndarray A) :
  amap g (amap f a) = amap (g ∘ f) a.
Proof.
  destruct a as [x|v|m rows]; cbn; [done|by rewrite map_map|].
  f_equal. rewrite map_map. apply map_ext. intros r. by rewrite map_map.
Qed.

End Elementwise.

Lemma amap_id_ravel {A} (f : A → A) (a : ndarray A) :
  (∀ x, x ∈ ravel a → f x = x) → amap f a = a.
Proof.
  intros H. rewrite (amap_ext_ravel f id) by done.
  destruct a as [x|v|m rows]; cbn; [done|by rewrite map_id|].
  f_equal. rewrite <- (map_id rows) at 2. apply map_ext. intros. apply map_id.
Qed.


(** ** One-hot rows and [argmax] *)

Section OneHot.
Open Scope Z_scope.

Lemma Qle_bool_inject_Z a b : Qle_bool (inject_Z a) (inject_Z b) = (a <=? b).
Proof. unfold Qle_bool. cbn. by rewrite !Z.mul_1_r. Qed.

Lemma argmax_from_indicator (k : nat) n i best besti :
  best = 0 ∨ best = 1 →
  argmax_from Qle_bool (inject_Z best) besti i
    (map inject_Z (map (λ j, if decide (j = k) then 1 else 0) (seq i n)))
  = if decide (best = 0 ∧ (i ≤ k < i + n)%nat) then k else besti.
Proof.
  revert i best besti. induction n as [|n IH]; intros i best besti Hbest.
  - cbn. case_decide; [lia|done].
  - cbn [seq map argmax_from]. rewrite Qle_bool_inject_Z.
    destruct (decide (i = k)) as [->|Hne].
    + destruct Hbest as [-> | ->]; cbn.
      * rewrite (IH _ 1) by (by right). rewrite decide_False by lia.
        by rewrite decide_True by lia.
      * rewrite (IH _ 1) by (by right). rewrite decide_False by lia.
        by rewrite decide_False by lia.
    + assert ((0 <=? best) = true) as -> by (destruct Hbest; by subst).
      rewrite IH by done.
      destruct (decide (best = 0 ∧ (S i ≤ k < S i + n)%nat)).
      * by rewrite decide_True by lia.
      * by rewrite decide_False by lia.
Qed.

Lemma argmax_row_indicator (w k : nat) :
  (k < w)%nat →
  argmax_row Qle_bool (map inject_Z (indicator_row w k)) = Ok (Z.of_nat k).
Proof.
  intros Hk. unfold indicator_row. destruct w as [|w]; [lia|].
  cbn [seq map argmax_row]. f_equal. f_equal.
  destruct (decide (0%nat = k)) as [<-|Hne].
  - rewrite (argmax_from_indicator 0 w 1 1) by (by right).
    by rewrite decide_False by lia.
  - rewrite (argmax_from_indicator k w 1 0) by (by left).
    by rewrite decide_True by lia.
Qed.

Lemma one_hot_of_nat (w k : nat) :
  (k < w)%nat → one_hot w (Z.of_nat k) = Ok (indicator_row w k).
Proof.
  intros Hk. unfold one_hot.
  destruct (Z.ltb_spec (Z.of_nat k) 0); [lia|].
  destruct (Z.leb_spec 0 (Z.of_nat k)); [|lia].
  destruct (Z.ltb_spec (Z.of_nat k) (Z.of_nat w)); [|lia].
  cbn. by rewrite Nat2Z.id.
Qed.

Lemma max_Z_ge x t : x ≤ max_Z x t ∧ Forall (λ y, y ≤ max_Z x t) t.
Proof.
  revert x. induction t as [|h t IH]; intros x; cbn; [split; [lia|done]|].
  destruct (IH (Z.max x h)) as [H1 H2]. split; [lia|].
  constructor; [lia|done].
Qed.

(** [to_categorical] of a column of class indices. *)
Lemma to_categorical_column (ks : list nat) rows k0 :
  concat rows = map Z.of_nat (k0 :: ks) →
  ∃ width,
    Forall (λ k, (k < width)%nat) (k0 :: ks)
    ∧ to_categorical (Arr2 1 rows)
      = Ok (Arr2 width (map (indicator_row width) (k0 :: ks))).
Proof.
  intros Hr. unfold to_categorical. cbn [ravel]. rewrite Hr.
  cbn [map]. set (t := map Z.of_nat ks).
  set (width := Z.to_nat (max_Z (Z.of_nat k0) t + 1)).
  exists width.
  assert (Hall : Forall (λ k, (k < width)%nat) (k0 :: ks)).
  { destruct (max_Z_ge (Z.of_nat k0) t) as [H0 Ht]. subst width.
    constructor; [lia|]. apply Forall_forall. intros k Hk.
    assert (Z.of_nat k ≤ max_Z (Z.of_nat k0) t).
    { apply (proj1 (Forall_forall _ _) Ht). subst t.
      by apply list_elem_of_fmap_2. }
    lia. }
  split; [done|].
  assert (traverse (one_hot width) (Z.of_nat k0 :: t)
          = Ok (map (indicator_row width) (k0 :: ks))) as ->; [|done].
  change (Z.of_nat k0 :: t) with (map Z.of_nat (k0 :: ks)).
  clear -Hall. induction Hall as [|k ks' Hk _ IH]; [done|].
  cbn [map traverse]. rewrite one_hot_of_nat by done. cbn.
  by rewrite IH.
Qed.

Lemma argmax_indicator_rows width (ks : list nat) :
  Forall (λ k, (k < width)%nat) ks →
  argmax_axis1 Qle_bool
    (amap inject_Z (Arr2 width (map (indicator_row width) ks)))
  = Ok (Arr1 (map Z.of_nat ks)).
Proof.
  intros Hall. cbn.
  assert (traverse (argmax_row Qle_bool)
            (map (map inject_Z) (map (indicator_row width) ks))
          = Ok (map Z.of_nat ks)) as ->; [|done].
  induction Hall as [|k ks' Hk _ IH]; [done|].
  cbn [map traverse]. rewrite argmax_row_indicator by done. cbn.
  by rewrite IH.
Qed.

End OneHot.

(** ** Splitting into columns and stacking them back *)

Lemma seq_S_head j n : seq j (S n) = j :: seq (S j) n.
Proof. reflexivity. Qed.

Section Columns.
Context {A : Type}.
Implicit Types (rows : list (list A)) (r : list A).

Lemma zip_with_app_map {B} (f g : B → list A) (l : list B) :
  zip_with app (map f l) (map g l) = map (λ x, f x ++ g x) l.
Proof. induction l as [|x l IH]; [done|]. cbn. by rewrite IH. Qed.

Lemma take_head_drop r j k :
  take 1 (drop j r) ++ take k (drop (S j) r) = take (S k) (drop j r).
Proof.
  replace (drop (S j) r) with (drop 1 (drop j r))
    by (rewrite drop_drop; f_equal; lia).
  destruct (drop j r); [|done]. cbn. by rewrite take_nil.
Qed.

Lemma hstack_cons (b : nat * list (list A)) bs res :
  bs ≠ [] → hstack bs = Ok res → hstack (b :: bs) = concat_axis1 b res.
Proof.
  destruct bs as [|p bs]; [done|]. intros _ H.
  change (hstack (b :: p :: bs))
    with (hstack (p :: bs) ≫= λ res', concat_axis1 b res').
  by rewrite H.
Qed.

(** Stacking the columns [j, j + k) gives the rows cut to that range. *)
Lemma hstack_columns rows j k :
  hstack (map (λ i, (1, map (λ r, take 1 (drop i r)) rows)) (seq j (S k)))
  = Ok (S k, map (λ r, take (S k) (drop j r)) rows).
Proof.
  revert j. induction k as [|k IH]; intros j; [done|].
  rewrite (seq_S_head j (S k)). rewrite map_cons.
  erewrite hstack_cons; [|by rewrite seq_S_head|apply IH].
  unfold concat_axis1. cbn [fst snd].
  rewrite !length_map, decide_True by done.
  rewrite zip_with_app_map. f_equal. f_equal.
  apply map_ext. intros r. apply take_head_drop.
Qed.

Lemma column_stack_split_columns m rows :
  wf (Arr2 (S m) rows) →
  ∃ blocks,
    split_columns (Arr2 (S m) rows) = Ok blocks
    ∧ length blocks = S m
    ∧ Forall (λ b, ∃ col, b = Arr2 1 col ∧ ∀ x, x ∈ concat col → x ∈ concat rows)
        blocks
    ∧ column_stack blocks = Ok (Arr2 (S m) rows).
Proof.
  intros Hwf. eexists. split; [reflexivity|].
  split; [by rewrite length_map, length_seq|]. split.
  - apply Forall_fmap, Forall_forall. intros j _. eexists. split; [done|].
    intros x (c & Hx & Hc)%elem_of_concat.
    apply list_elem_of_fmap in Hc as (r & -> & Hr).
    apply elem_of_concat. exists r. split; [|done].
    by apply subseteq_take, subseteq_drop in Hx.
  - unfold column_stack. rewrite map_map. cbn [as_columns].
    rewrite hstack_columns. cbn. f_equal. f_equal.
    rewrite <- (map_id rows) at 2. apply map_ext_in.
    intros r Hr. cbn in Hwf.
    apply list_elem_of_In, (proj1 (Forall_forall _ _) Hwf) in Hr.
    rewrite drop_0. apply take_ge. lia.
Qed.

End Columns.

(** Stacking commutes with an elementwise map. *)
Section StackMap.
Context {A B : Type} (f : A → B).

Lemma as_columns_amap (a : ndarray A) :
  as_columns (amap f a) = block_map f (as_columns a).
Proof.
  destruct a as [x|v|m rows]; unfold block_map; cbn; [done| |done].
  by rewrite !map_map.
Qed.

Lemma concat_axis1_map (a b : nat * list (list A)) :
  concat_axis1 (block_map f a) (block_map f b)
  = (r ← concat_axis1 a b; Ok (block_map f r)).
Proof.
  unfold concat_axis1, block_map. cbn [fst snd]. rewrite !length_map.
  case_decide; [|done]. cbn. f_equal. f_equal.
  destruct a as [m ra], b as [m' rb]. cbn [fst snd] in *. clear.
  revert rb. induction ra as [|r ra IH]; intros [|r' rb]; try done.
  cbn. by rewrite map_app, IH.
Qed.

Lemma hstack_map (bs : list (nat * list (list A))) :
  hstack (map (block_map f) bs) = (r ← hstack bs; Ok (block_map f r)).
Proof.
  induction bs as [|b bs IH]; [done|].
  destruct bs as [|b' bs]; [done|].
  change (hstack (map (block_map f) (b :: b' :: bs)))
    with (hstack (map (block_map f) (b' :: bs))
          ≫= λ r, concat_axis1 (block_map f b) r).
  change (hstack (b :: b' :: bs))
    with (hstack (b' :: bs) ≫= λ r, concat_axis1 b r).
  rewrite IH. destruct (hstack (b' :: bs)) as [r|e]; [|done].
  cbn. apply concat_axis1_map.
Qed.

Lemma column_stack_amap (tup : list (ndarray A)) :
  column_stack (map (amap f) tup) = (r ← column_stack tup; Ok (amap f r)).
Proof.
  unfold column_stack. rewrite map_map.
  rewrite (map_ext _ (block_map f ∘ as_columns)) by apply as_columns_amap.
  rewrite <- (map_map as_columns (block_map f)), hstack_map.
  by destruct (hstack (map as_columns tup)) as [[]|].
Qed.

End StackMap.

(** ** Squeezing a column *)

Lemma concat_singletons {A} (v : list A) : concat (map (λ x, [x]) v) = v.
Proof. induction v as [|x v IH]; [done|]. cbn. by rewrite IH. Qed.

Lemma squeeze_single_column {A} (rows : list (list A)) :
  Forall (λ r, length r = 1) rows →
  squeeze (Arr2 1 rows) = squeeze (Arr1 (concat rows)).
Proof.
  intros Hwf. destruct rows as [|r [|r' rows]].
  - done.
  - apply Forall_cons in Hwf as [Hr _].
    destruct r as [|x [|x' r]]; done.
  - assert (length (concat (r :: r' :: rows)) = length (r :: r' :: rows))
      as Hlen by (by apply concat_singletons_length).
    cbn [squeeze]. rewrite decide_True by done.
    destruct (concat (r :: r' :: rows)) as [|x [|x' l]]; done.
Qed.

Lemma squeeze_reshape_col {A} (v : list A) :
  squeeze (reshape_col v) = squeeze (Arr1 v).
Proof.
  unfold reshape_col. rewrite squeeze_single_column.
  - by rewrite concat_singletons.
  - by apply Forall_fmap, Forall_true.
Qed.

(** ** The label attributes and the post-processing of a classifier *)

Section RoundTrip.
Context (K : klass) (Hk : k_kind K = KerasClassifier).

Lemma setattrs_dict (extra : list (string * pyval)) s :
  self_dict (for_each (λ kv, setattr kv.1 kv.2) extra s).2
  = foldl (λ d kv, <[kv.1 := kv.2]> d) (self_dict s) extra.
Proof.
  revert s. induction extra as [|kv extra IH]; intros s; [done|].
  cbn [for_each foldl]. rewrite bind_run. cbn [setattr]. by rewrite IH.
Qed.

Lemma label_attrs_lookup (d : gmap string pyval) c n nk nc t :
  let d' := foldl (λ d kv, <[kv.1 := kv.2]> d) d
              [("classes_", c); ("n_outputs_", n); ("n_outputs_keras_", nk);
               ("n_classes_", nc); ("cls_type_", t)] in
  lookup_attr K d' "n_outputs_" = Ok n
  ∧ lookup_attr K d' "classes_" = Ok c
  ∧ lookup_attr K d' "cls_type_" = Ok t.
Proof.
  cbn [foldl fst snd]. unfold lookup_attr. repeat split.
  - rewrite !lookup_insert_ne by done. by rewrite lookup_insert_eq.
  - rewrite !lookup_insert_ne by done. by rewrite lookup_insert_eq.
  - by rewrite lookup_insert_eq.
Qed.

Lemma post_process_y_classifier p s :
  (_post_process_y K p s).1
  = (KerasClassifier_post_process_y (lookup_attr K (self_dict s)) p
     ≫= λ r, Ok (LInt r.1, Some r.2)).
Proof.
  unfold _post_process_y. rewrite Hk, !bind_run. cbn [get_dict].
  unfold lift.
  by destruct (KerasClassifier_post_process_y _ p) as [[]|].
Qed.

Lemma post_process_single getattr c t a :
  getattr "n_outputs_" = Ok (PyInt 1) →
  getattr "classes_" = Ok (int_array c) →
  getattr "cls_type_" = Ok (PyStr t) →
  KerasClassifier_post_process_y getattr (PredArr a)
  = ('(pred, y_i) ← post_process_output t a c;
     class_probabilities ← column_stack [y_i];
     y ← column_stack [pred];
     Ok (squeeze y, squeeze class_probabilities)).
Proof.
  intros Hn Hc Ht. unfold KerasClassifier_post_process_y.
  rewrite Hn, Hc, Ht. cbn.
  by destruct (post_process_output t a c) as [[]|].
Qed.

Lemma post_process_multi getattr (cs : list (list Z)) t outs (n : nat) :
  n ≠ 1 →
  getattr "n_outputs_" = Ok (PyInt (Z.of_nat n)) →
  getattr "classes_" = Ok (PyList (map int_array cs)) →
  getattr "cls_type_" = Ok (PyStr t) →
  KerasClassifier_post_process_y getattr (PredList outs)
  = ('(preds, ys) ← post_process_loop t outs cs;
     class_probabilities ← column_stack ys;
     y ← column_stack preds;
     Ok (squeeze y, squeeze class_probabilities)).
Proof.
  intros Hne Hn Hc Ht. unfold KerasClassifier_post_process_y.
  rewrite Hn, Hc, Ht.
  assert (traverse decode_classes (map int_array cs) = Ok cs) as Hdec
    by (by apply traverse_map_id).
  cbn [mbind result_bind Py.bind].
  destruct (Z.of_nat n) as [|p|p] eqn:Hp; cbn [mbind result_bind Py.bind];
    rewrite ?Hdec; try done.
  destruct p; cbn [mbind result_bind Py.bind]; rewrite ?Hdec; try done.
  lia.
Qed.

Lemma ravel_amap {A B} (f : A → B) (a : ndarray A) :
  ravel (amap f a) = map f (ravel a).
Proof.
  destruct a as [x|v|m rows]; cbn; [done..|].
  induction rows as [|r rows IH]; [done|]. cbn. by rewrite map_app, IH.
Qed.

(** A binary or multiclass target is a single column once reshaped. *)
Lemma single_column_form (y : ndarray Z) t :
  ndim y = 1 ∨ ndim y = 2 → wf y →
  type_of_target (lreshape_if_1d (LInt y)) = t →
  t = "binary" ∨ t = "multiclass" →
  ∃ rows, lreshape_if_1d (LInt y) = LInt (Arr2 1 rows)
          ∧ Forall (λ r, length r = 1) rows
          ∧ squeeze (Arr2 1 rows) = squeeze y.
Proof.
  intros Hdim Hwf Ht Hcase. destruct y as [x|v|m rows].
  - by destruct Hdim.
  - exists (map (λ x, [x]) v). split; [done|]. split.
    + by apply Forall_fmap, Forall_true.
    + apply squeeze_reshape_col.
  - cbn [lreshape_if_1d] in Ht.
    unfold type_of_target, type_of_target_int in Ht.
    destruct (1 <? m)%nat eqn:Hm.
    { destruct (length _ <? 3)%nat; subst t; by destruct Hcase. }
    destruct (m =? 0)%nat eqn:Hm0; [subst t; by destruct Hcase|].
    apply Nat.ltb_ge in Hm. apply Nat.eqb_neq in Hm0.
    assert (m = 1) as -> by lia. by exists rows.
Qed.

Lemma pre_process_single_column (y : ndarray Z) rows t :
  lreshape_if_1d (LInt y) = LInt (Arr2 1 rows) →
  type_of_target (LInt (Arr2 1 rows)) = t →
  t = "binary" ∨ t = "multiclass" →
  let c := unique_list (concat rows) in
  KerasClassifier_pre_process_y (LInt y)
  = Ok ([searchsorted c (Arr2 1 rows)],
        [("classes_", int_array c);
         ("n_outputs_", PyInt 1);
         ("n_outputs_keras_", PyInt 1);
         ("n_classes_", PyInt (Z.of_nat (length c)));
         ("cls_type_", PyStr t)]).
Proof.
  intros Hy Ht Hcase c. unfold KerasClassifier_pre_process_y.
  cbn [BaseWrapper_pre_process_y]. rewrite Hy, Ht. cbn [as_int shape1].
  destruct Hcase as [-> | ->]; reflexivity.
Qed.

Lemma take_along_searchsorted (a : ndarray Z) :
  take_along (unique_list (ravel a)) (searchsorted (unique_list (ravel a)) a)
  = Ok a.
Proof.
  unfold take_along, searchsorted. apply atraverse_amap_id.
  intros x Hx. by apply getitem_searchsorted.
Qed.

(** The round trip of a binary target through a sigmoid head. *)
Lemma round_trip_binary s (y : ndarray Z) :
  ndim y = 1 ∨ ndim y = 2 → wf y →
  type_of_target (lreshape_if_1d (LInt y)) = "binary" →
  classifier_round_trip K s y = Ok (LInt (squeeze y)).
Proof.
  intros Hdim Hwf Ht.
  destruct (single_column_form y _ Hdim Hwf Ht (or_introl eq_refl))
    as (rows & Hy & Hrows & Hsq).
  unfold classifier_round_trip. rewrite Ht.
  rewrite Hy in Ht.
  rewrite (pre_process_single_column y rows _ Hy Ht (or_introl eq_refl)).
  set (c := unique_list (concat rows)).
  set (idx := searchsorted c (Arr2 1 rows)).
  cbn [mbind result_bind Py.bind traverse].
  unfold ideal_output. rewrite decide_True by done.
  cbn [mbind result_bind Py.bind as_prediction].
  rewrite post_process_y_classifier, setattrs_dict.
  destruct (label_attrs_lookup (self_dict s) (int_array c) (PyInt 1)
              (PyInt 1) (PyInt (Z.of_nat (length c))) (PyStr "binary"))
    as (Hn & Hc & Hty).
  rewrite (post_process_single _ c "binary" _ Hn Hc Hty).
  (* the sigmoid output is thresholded back to the class indices *)
  assert (Hlen : (length c ≤ 2)%nat).
  { unfold type_of_target, type_of_target_int, unique in Ht.
    cbn [ravel] in Ht. fold c in Ht.
    change (1 <? 1)%nat with false in Ht.
    change (1 =? 0)%nat with false in Ht. cbv iota in Ht.
    destruct (2 <? length c)%nat eqn:H2; [done|].
    by apply Nat.ltb_ge in H2. }
  assert (Hwhere : where_gt_half (amap inject_Z idx) = idx).
  { unfold where_gt_half. rewrite amap_amap. apply amap_id_ravel.
    intros i Hi. subst idx. unfold searchsorted in Hi.
    rewrite ravel_amap in Hi.
    apply list_elem_of_fmap in Hi as (x & -> & Hx).
    pose proof (searchsorted1_lt (concat rows) x Hx) as Hlt. fold c in Hlt.
    destruct (searchsorted1 c x) as [|[|k]]; [done|done|lia]. }
  unfold post_process_output. rewrite decide_True by done.
  assert (shape1 (amap inject_Z idx) = Ok 1) as -> by done.
  cbn [mbind result_bind Py.bind]. rewrite decide_True by done.
  rewrite Hwhere. subst idx c.
  pose proof (take_along_searchsorted (Arr2 1 rows)) as Htake.
  cbn [ravel] in Htake. rewrite Htake.
  cbn [mbind result_bind Py.bind searchsorted amap concatenate_axis1].
  unfold concat_axis1. cbn [fst snd].
  rewrite !length_map, decide_True by done.
  rewrite <- Hsq. reflexivity.
Qed.

(** The round trip of a multiclass target through a softmax head. *)
Lemma round_trip_multiclass s (y : ndarray Z) :
  ndim y = 1 ∨ ndim y = 2 → wf y →
  type_of_target (lreshape_if_1d (LInt y)) = "multiclass" →
  classifier_round_trip K s y = Ok (LInt (squeeze y)).
Proof.
  intros Hdim Hwf Ht.
  destruct (single_column_form y _ Hdim Hwf Ht (or_intror eq_refl))
    as (rows & Hy & Hrows & Hsq).
  unfold classifier_round_trip. rewrite Ht.
  rewrite Hy in Ht.
  rewrite (pre_process_single_column y rows _ Hy Ht (or_intror eq_refl)).
  set (c := unique_list (concat rows)).
  cbn [mbind result_bind Py.bind traverse].
  unfold ideal_output.
  rewrite decide_False by done. rewrite decide_False by done.
  (* the class indices, as natural numbers *)
  set (w := concat rows).
  set (ks := map (searchsorted1 c) w).
  assert (Hidx : concat (map (map (λ x, Z.of_nat (searchsorted1 c x))) rows)
                 = map Z.of_nat ks).
  { subst ks w. by rewrite map_map, <- concat_map. }
  assert (Hne : ks ≠ []).
  { unfold type_of_target, type_of_target_int, unique in Ht.
    cbn [ravel] in Ht. fold w c in Ht.
    change (1 <? 1)%nat with false in Ht.
    change (1 =? 0)%nat with false in Ht. cbv iota in Ht.
    subst ks c. destruct w; [done|]. done. }
  destruct ks as [|k0 ks'] eqn:Hks; [done|].
  unfold searchsorted. cbn [amap].
  destruct (to_categorical_column ks' _ k0 Hidx) as (width & Hall & ->).
  cbn [mbind result_bind Py.bind as_prediction].
  rewrite post_process_y_classifier, setattrs_dict.
  destruct (label_attrs_lookup (self_dict s) (int_array c) (PyInt 1)
              (PyInt 1) (PyInt (Z.of_nat (length c))) (PyStr "multiclass"))
    as (Hn & Hc & Hty).
  rewrite (post_process_single _ c "multiclass" _ Hn Hc Hty).
  unfold post_process_output.
  rewrite decide_False by done. rewrite decide_True by done.
  rewrite (argmax_indicator_rows width (k0 :: ks') Hall).
  cbn [mbind result_bind Py.bind].
  assert (take_along c (Arr1 (map Z.of_nat (k0 :: ks'))) = Ok (Arr1 w)) as ->.
  { rewrite <- Hks. subst ks. rewrite map_map.
    unfold take_along. cbn [atraverse].
    rewrite (traverse_map_id (λ x, Z.of_nat (searchsorted1 c x)) (getitem c));
      [done|].
    intros x Hx. by apply getitem_searchsorted. }
  cbn [mbind result_bind Py.bind].
  rewrite <- Hsq, (squeeze_single_column rows Hrows).
  fold w. rewrite <- squeeze_reshape_col. reflexivity.
Qed.

Lemma traverse_Ok_map {A B} (f : A → result B) (g : A → B) l :
  (∀ x, x ∈ l → f x = Ok (g x)) → traverse f l = Ok (map g l).
Proof.
  induction l as [|x l IH]; intros H; [done|]. cbn.
  rewrite (H x) by apply list_elem_of_here. cbn.
  rewrite IH by (intros; by apply H, list_elem_of_further). done.
Qed.

Lemma post_process_loop_indicator outs (cs : list (list Z)) :
  (length outs ≤ length cs)%nat →
  post_process_loop "multilabel-indicator" outs cs
  = Ok (map where_gt_half outs, outs).
Proof.
  revert cs. induction outs as [|o outs IH]; intros cs Hlen.
  - by destruct cs.
  - destruct cs as [|c cs]; [cbn in Hlen; lia|].
    cbn [post_process_loop]. unfold post_process_output.
    rewrite decide_False by done. rewrite decide_False by done.
    rewrite decide_True by done. cbn [mbind result_bind Py.bind].
    rewrite IH by (cbn in Hlen; lia). done.
Qed.

(** The round trip of a 0/1 label-indicator matrix through one sigmoid head
    per column. *)
Lemma round_trip_indicator s (y : ndarray Z) :
  ndim y = 1 ∨ ndim y = 2 → wf y →
  type_of_target (lreshape_if_1d (LInt y)) = "multilabel-indicator" →
  Forall (λ v, v = 0%Z ∨ v = 1%Z) (ravel y) →
  classifier_round_trip K s y = Ok (LInt (squeeze y)).
Proof.
  intros Hdim Hwf Ht H01.
  assert (∃ m rows, y = Arr2 (S (S m)) rows) as (m & rows & ->).
  { destruct y as [x|v|m rows].
    - by destruct Hdim.
    - cbn [lreshape_if_1d] in Ht.
      unfold type_of_target, type_of_target_int, reshape_col in Ht.
      change (1 <? 1)%nat with false in Ht.
      change (1 =? 0)%nat with false in Ht. cbv iota in Ht.
      by destruct (2 <? _)%nat.
    - cbn [lreshape_if_1d] in Ht.
      unfold type_of_target, type_of_target_int in Ht.
      destruct m as [|[|m]]; [| |by eauto].
      + by destruct (2 <? _)%nat.
      + change (1 <? 1)%nat with false in Ht.
        change (1 =? 0)%nat with false in Ht. cbv iota in Ht.
        by destruct (2 <? _)%nat. }
  destruct (column_stack_split_columns (S m) rows Hwf)
    as (blocks & Hsplit & Hlen & Hsub & Hstack).
  unfold classifier_round_trip. rewrite Ht.
  unfold KerasClassifier_pre_process_y.
  cbn [BaseWrapper_pre_process_y lreshape_if_1d as_int shape1].
  cbn [lreshape_if_1d] in Ht. rewrite Ht.
  cbn [mbind result_bind Py.bind].
  rewrite decide_False by done. rewrite decide_False by done.
  rewrite decide_True by done. rewrite Hsplit.
  cbn [mbind result_bind Py.bind replicate].
  (* the ideal outputs are the blocks themselves *)
  rewrite (traverse_Ok_map _ (amap inject_Z)); last first.
  { intros b _. unfold ideal_output. rewrite decide_False by done.
    by rewrite decide_True by done. }
  cbn [mbind result_bind Py.bind].
  assert (as_prediction (map (amap inject_Z) blocks)
          = PredList (map (amap inject_Z) blocks)) as ->.
  { by destruct blocks as [|b0 [|b1 blocks]]. }
  rewrite post_process_y_classifier, setattrs_dict.
  set (cs := [0%Z; 1%Z] :: [0%Z; 1%Z] :: replicate m [0%Z; 1%Z]).
  match goal with
  | |- context [foldl _ _ [("classes_", ?c); ("n_outputs_", ?n);
                           ("n_outputs_keras_", ?nk); ("n_classes_", ?nc);
                           ("cls_type_", ?t)]] =>
      destruct (label_attrs_lookup (self_dict s) c n nk nc t)
        as (Hn & Hc & Hty)
  end.
  rewrite (post_process_multi _ cs "multilabel-indicator" _
             (length (map (λ c : list Z, PyInt (Z.of_nat (length c))) cs)));
    [|subst cs; cbn; lia|exact Hn|exact Hc|exact Hty].
  rewrite post_process_loop_indicator; last first.
  { subst cs. rewrite length_map, Hlen. cbn. rewrite length_replicate. lia. }
  cbn [mbind result_bind Py.bind].
  rewrite column_stack_amap, Hstack. cbn [mbind result_bind Py.bind].
  assert (map where_gt_half (map (amap inject_Z) blocks) = blocks) as ->.
  { rewrite map_map. rewrite <- (map_id blocks) at 2.
    apply map_ext_in. intros b Hb. apply list_elem_of_In in Hb.
    apply (proj1 (Forall_forall _ _) Hsub) in Hb as (col & -> & Hcol).
    unfold where_gt_half. rewrite amap_amap. apply amap_id_ravel.
    intros x Hx. cbn [ravel] in Hx. apply Hcol in Hx.
    apply (proj1 (Forall_forall _ _) H01) in Hx as [-> | ->]; done. }
  rewrite Hstack. reflexivity.
Qed.

End RoundTrip.

(** The regressor's round trip: a floating-point column in, its squeezed
    values out. *)
Lemma round_trip_regressor (y : labels) :
  length (lshape y) = 1 ∨ length (lshape y) = 2 →
  regressor_round_trip y = Ok (squeeze (float_values y)).
Proof.
  intros Hdim.
  assert (∀ rows : list (list Q), map (map astype_float64) rows = rows)
    as Hcast.
  { intros rows.
    assert (amap astype_float64 (Arr2 0 rows) = Arr2 0 rows) as Ha
      by by apply amap_id_ravel.
    cbn in Ha. by injection Ha. }
  unfold regressor_round_trip, KerasRegressor_pre_process_y.
  destruct y as [[x|v|m rows]|[x|v|m rows]];
    try (by destruct Hdim);
    cbn [to_float64 BaseWrapper_pre_process_y lreshape_if_1d amap
         reshape_col shape1 mbind result_bind Py.bind
         KerasRegressor_post_process_y float_values fst];
    rewrite Hcast; try reflexivity.
  - by rewrite <- (squeeze_reshape_col (map inject_Z v)).
  - by rewrite <- (squeeze_reshape_col v).
Qed.




(** The multiclass-multioutput branch of the pre-process hands the raw
    labels to the model, whereas the post-process reads every answer as
    an index into the sorted vocabulary of its column: on the columns of
    [[1, 2], [2, 3], [3, 1]] the round trip ends in an index error. *)
Example round_trip_multioutput_raw_labels :
  type_of_target (lreshape_if_1d (LInt (Arr2 2 [[1; 2]; [2; 3]; [3; 1]]%Z)))
  = "multiclass-multioutput"
  ∧ classifier_round_trip Examples.a_classifier Examples.fresh
      (Arr2 2 [[1; 2]; [2; 3]; [3; 1]]%Z)
    = Raise IndexError.
Proof. split; vm_compute; reflexivity. Qed.
